(** * royolty-shop: the product controller

    A shallow embedding of the product controller of the backend (the
    request handlers [getProducts], [getProductById], [updateProduct],
    [createProductReview] and [getTopProducts]) together with the
    properties its specification states about them.

    The handlers are written in a small state-and-exception monad over
    the product collection and the response object, so that each one
    reads like its JavaScript source. *)

From Stdlib Require Import QArith Qcanon Qround ZArith Lia.
From Stdlib Require Import Ascii String.
From stdpp Require Import gmap strings list sorting.

Local Open Scope Z_scope.

(** ** JavaScript numbers

    A JavaScript number is [NaN], one of the two infinities, or a finite
    value.  Finite values are kept as exact canonical rationals: the
    rounding of IEEE-754 binary64 and the sign of zero are not part of
    this model.  Every integer computed by the handlers (counts, page
    numbers, offsets) is far below 2^53 and therefore exact in
    JavaScript as well. *)

Module Num.

Inductive number : Type :=
  | NaN
  | PosInf
  | NegInf
  | Fin (q : Qc).

#[global] Instance number_eq_dec : EqDecision number.
Proof. solve_decision. Defined.

Definition of_Z (z : Z) : number := Fin (Qc_of_Z z).
Definition of_nat (n : nat) : number := of_Z (Z.of_nat n).

Definition zero : number := of_Z 0.
Definition one : number := of_Z 1.

(** ToBoolean on a number: [NaN] and zero are falsy. *)
Definition truthy (n : number) : bool :=
  match n with
  | NaN => false
  | PosInf | NegInf => true
  | Fin q => negb (bool_decide (q = Qc_of_Z 0))
  end.

Definition neg (n : number) : number :=
  match n with
  | NaN => NaN
  | PosInf => NegInf
  | NegInf => PosInf
  | Fin q => Fin (Qcopp q)
  end.

(** [a + b] *)
Definition add (a b : number) : number :=
  match a, b with
  | NaN, _ | _, NaN => NaN
  | PosInf, NegInf | NegInf, PosInf => NaN
  | PosInf, _ | _, PosInf => PosInf
  | NegInf, _ | _, NegInf => NegInf
  | Fin x, Fin y => Fin (Qcplus x y)
  end.

(** [a - b] *)
Definition sub (a b : number) : number := add a (neg b).

(** The infinity carrying the sign of a comparison with zero, [NaN] when
    the other factor is zero. *)
Definition signed_inf (c : comparison) : number :=
  match c with
  | Gt => PosInf
  | Lt => NegInf
  | Eq => NaN
  end.

Definition sign (n : number) : comparison :=
  match n with
  | NaN => Eq
  | PosInf => Gt
  | NegInf => Lt
  | Fin q => Qccompare q (Qc_of_Z 0)
  end.

Definition comp_mul (c d : comparison) : comparison :=
  match c, d with
  | Eq, _ | _, Eq => Eq
  | Gt, Gt | Lt, Lt => Gt
  | Gt, Lt | Lt, Gt => Lt
  end.

(** [a * b] *)
Definition mul (a b : number) : number :=
  match a, b with
  | NaN, _ | _, NaN => NaN
  | Fin x, Fin y => Fin (Qcmult x y)
  | _, _ => signed_inf (comp_mul (sign a) (sign b))
  end.

(** [a / b].  Zero is unsigned here, so a non-zero finite value divided
    by zero takes the sign of the dividend. *)
Definition div (a b : number) : number :=
  match a, b with
  | NaN, _ | _, NaN => NaN
  | Fin x, Fin y =>
      if bool_decide (y = Qc_of_Z 0)
      then signed_inf (Qccompare x (Qc_of_Z 0))
      else Fin (Qcdiv x y)
  | Fin _, _ => zero
  | _, Fin y =>
      signed_inf (comp_mul (sign a)
                    (match Qccompare y (Qc_of_Z 0) with Eq => Gt | c => c end))
  | _, _ => NaN
  end.

(** [Math.ceil] *)
Definition ceil (n : number) : number :=
  match n with
  | Fin q => of_Z (Qceiling q)
  | _ => n
  end.

(** [a || b] on numbers: the first operand when it is truthy. *)
Definition or_else (a b : number) : number :=
  if truthy a then a else b.

(** The finite non-negative integers, as the store accepts them for an
    offset. *)
Definition to_nat (n : number) : option nat :=
  match n with
  | Fin q =>
      let z := Qfloor q in
      if bool_decide (q = Qc_of_Z z) && bool_decide (0 ≤ z)
      then Some (Z.to_nat z) else None
  | _ => None
  end.

End Num.

Export Num(number, NaN, PosInf, NegInf, Fin).

(** ** JavaScript values and the [Number(...)] coercion

    The values that reach the handlers through a query string or a JSON
    body: [undefined] (an absent property), [null], booleans, numbers
    and strings.  Arrays and nested objects are not modelled.  Strings
    are sequences of 8-bit characters. *)

Inductive JSValue : Type :=
  | VUndefined
  | VNull
  | VBool (b : bool)
  | VNumber (n : number)
  | VString (s : string).

#[global] Instance JSValue_eq_dec : EqDecision JSValue.
Proof. solve_decision. Defined.

(** ToBoolean: [undefined], [null], [false], [NaN], zero and the empty
    string are falsy. *)
Definition truthy (v : JSValue) : bool :=
  match v with
  | VUndefined | VNull => false
  | VBool b => b
  | VNumber n => Num.truthy n
  | VString s => negb (bool_decide (s = EmptyString))
  end.

Module StringToNumber.

Local Open Scope char_scope.

(** The white space and line terminators below code 128. *)
Definition is_space (c : ascii) : bool :=
  let n := nat_of_ascii c in
  bool_decide (n = 9 ∨ n = 10 ∨ n = 11 ∨ n = 12 ∨ n = 13 ∨ n = 32)%nat.

Fixpoint drop_space (s : list ascii) : list ascii :=
  match s with
  | c :: s' => if is_space c then drop_space s' else s
  | [] => []
  end.

Definition trim (s : list ascii) : list ascii :=
  rev (drop_space (rev (drop_space s))).

(** The value of [c] as a digit, for a base up to sixteen. *)
Definition digit_val (base : Z) (c : ascii) : option Z :=
  let n := Z.of_nat (nat_of_ascii c) in
  let d :=
    if bool_decide (48 ≤ n ≤ 57) then Some (n - 48)
    else if bool_decide (97 ≤ n ≤ 102) then Some (n - 87)
    else if bool_decide (65 ≤ n ≤ 70) then Some (n - 55)
    else None in
  match d with
  | Some v => if bool_decide (v < base) then Some v else None
  | None => None
  end.

(** Reads the longest run of digits: the accumulated value, the number
    of digits read and the remaining characters. *)
Fixpoint read_digits (base acc : Z) (n : nat) (s : list ascii)
  : Z * nat * list ascii :=
  match s with
  | c :: s' =>
      match digit_val base c with
      | Some d => read_digits base (acc * base + d) (S n) s'
      | None => (acc, n, s)
      end
  | [] => (acc, n, [])
  end.

Definition pow10 (k : Z) : Qc :=
  if bool_decide (0 ≤ k) then Qc_of_Z (10 ^ k)
  else Qcinv (Qc_of_Z (10 ^ (- k))).

(** ExponentPart, when present: [e] or [E], an optional sign and at
    least one digit, up to the end of the string. *)
Definition read_exponent (s : list ascii) : option Z :=
  match s with
  | [] => Some 0
  | c :: r =>
      if bool_decide (c = "e" ∨ c = "E") then
        let '(sg, r') :=
          match r with
          | "+" :: t => (1, t)
          | "-" :: t => (-1, t)
          | _ => (1, r)
          end in
        match read_digits 10 0 0 r' with
        | (e, S _, []) => Some (sg * e)
        | _ => None
        end
      else None
  end.

(** StrUnsignedDecimalLiteral without [Infinity]:
    digits, an optional fraction and an optional exponent. *)
Definition unsigned_decimal (s : list ascii) : option Qc :=
  let '(ip, ni, r1) := read_digits 10 0 0 s in
  let '(m, nf, r2) :=
    match r1 with
    | "." :: r => read_digits 10 ip 0 r
    | _ => (ip, 0%nat, r1)
    end in
  if bool_decide (ni + nf = 0)%nat then None
  else
    match read_exponent r2 with
    | Some e => Some (Qcmult (Qc_of_Z m) (pow10 (e - Z.of_nat nf)))
    | None => None
    end.

Definition Infinity_lit : list ascii := list_ascii_of_string "Infinity".

Definition unsigned_literal (s : list ascii) : number :=
  if bool_decide (s = Infinity_lit) then PosInf
  else match unsigned_decimal s with
       | Some q => Fin q
       | None => NaN
       end.

(** NonDecimalIntegerLiteral: [0x], [0o] or [0b] and at least one digit
    of that base. *)
Definition non_decimal (s : list ascii) : option number :=
  match s with
  | "0" :: p :: r =>
      let base :=
        if bool_decide (p = "x" ∨ p = "X") then Some 16
        else if bool_decide (p = "o" ∨ p = "O") then Some 8
        else if bool_decide (p = "b" ∨ p = "B") then Some 2
        else None in
      match base with
      | Some b =>
          match read_digits b 0 0 r with
          | (v, S _, []) => Some (Num.of_Z v)
          | _ => Some NaN
          end
      | None => None
      end
  | _ => None
  end.

(** StringToNumber: the empty or blank string is zero, a string that is
    not a StringNumericLiteral is [NaN]. *)
Definition parse (str : string) : number :=
  let s := trim (list_ascii_of_string str) in
  match s with
  | [] => Num.zero
  | "+" :: r => unsigned_literal r
  | "-" :: r => Num.neg (unsigned_literal r)
  | _ =>
      match non_decimal s with
      | Some n => n
      | None => unsigned_literal s
      end
  end.

End StringToNumber.

(** [Number(v)] *)
Definition Number (v : JSValue) : number :=
  match v with
  | VUndefined => NaN
  | VNull => Num.zero
  | VBool true => Num.one
  | VBool false => Num.zero
  | VNumber n => n
  | VString s => StringToNumber.parse s
  end.

(** ** The data model: products and their embedded reviews

    An [ObjectId] is represented by its hexadecimal rendering, which is
    what [toString()] returns and what the handlers compare. *)

Record ObjectId : Type := mkObjectId { toString : string }.

#[global] Instance ObjectId_eq_dec : EqDecision ObjectId.
Proof. solve_decision. Defined.

Module Review.
Record t : Type := mk {
  name : string;
  rating : number;
  comment : JSValue;
  user : ObjectId;
}.
End Review.

#[global] Instance Review_eq_dec : EqDecision Review.t.
Proof. solve_decision. Defined.

Module Product.
Record t : Type := mk {
  _id : ObjectId;
  user : ObjectId;
  name : JSValue;
  image : JSValue;
  brand : JSValue;
  category : JSValue;
  description : JSValue;
  reviews : list Review.t;
  rating : number;
  numReviews : number;
  price : JSValue;
  countInStock : JSValue;
}.

(** The property assignments [product.f = v] of the handlers. *)
Definition set_name (v : JSValue) (p : t) : t :=
  mk (_id p) (user p) v (image p) (brand p) (category p) (description p)
     (reviews p) (rating p) (numReviews p) (price p) (countInStock p).
Definition set_price (v : JSValue) (p : t) : t :=
  mk (_id p) (user p) (name p) (image p) (brand p) (category p)
     (description p) (reviews p) (rating p) (numReviews p) v
     (countInStock p).
Definition set_description (v : JSValue) (p : t) : t :=
  mk (_id p) (user p) (name p) (image p) (brand p) (category p) v
     (reviews p) (rating p) (numReviews p) (price p) (countInStock p).
Definition set_image (v : JSValue) (p : t) : t :=
  mk (_id p) (user p) (name p) v (brand p) (category p) (description p)
     (reviews p) (rating p) (numReviews p) (price p) (countInStock p).
Definition set_brand (v : JSValue) (p : t) : t :=
  mk (_id p) (user p) (name p) (image p) v (category p) (description p)
     (reviews p) (rating p) (numReviews p) (price p) (countInStock p).
Definition set_countInStock (v : JSValue) (p : t) : t :=
  mk (_id p) (user p) (name p) (image p) (brand p) (category p)
     (description p) (reviews p) (rating p) (numReviews p) (price p) v.
Definition set_reviews (v : list Review.t) (p : t) : t :=
  mk (_id p) (user p) (name p) (image p) (brand p) (category p)
     (description p) v (rating p) (numReviews p) (price p)
     (countInStock p).
Definition set_numReviews (v : number) (p : t) : t :=
  mk (_id p) (user p) (name p) (image p) (brand p) (category p)
     (description p) (reviews p) (rating p) v (price p) (countInStock p).
Definition set_rating (v : number) (p : t) : t :=
  mk (_id p) (user p) (name p) (image p) (brand p) (category p)
     (description p) (reviews p) v (numReviews p) (price p)
     (countInStock p).
End Product.

#[global] Instance Product_eq_dec : EqDecision Product.t.
Proof. solve_decision. Defined.

(** ** Requests and responses *)

Module User.
(** [req.user], as the authentication middleware leaves it. *)
Record t : Type := mk { _id : ObjectId; name : string }.
End User.

(** [req.params.id] is taken as a well-formed identifier.  The query
    string maps parameter names to strings, the JSON body maps property
    names to values; an absent property reads as [undefined]. *)
Record Request : Type := mkRequest {
  params_id : ObjectId;
  query : gmap string string;
  body : gmap string JSValue;
  user : User.t;
}.

Definition query_get (req : Request) (k : string) : JSValue :=
  match query req !! k with
  | Some s => VString s
  | None => VUndefined
  end.

Definition body_get (req : Request) (k : string) : JSValue :=
  default VUndefined (body req !! k).

(** What a handler passes to [res.json]. *)
Inductive Payload : Type :=
  | ProductsPage (products : list Product.t) (page pages : number)
  | ProductDoc (product : Product.t)
  | ProductList (products : list Product.t)
  | Message (message : string).

#[global] Instance Payload_eq_dec : EqDecision Payload.
Proof. solve_decision. Defined.

(** ** The document store

    The collection is the list of its documents in natural (insertion)
    order.  The store evaluates the [$regex] operator with a regular
    expression engine that is not part of the repository; it is an
    interface here: compiling a pattern under given options fails on a
    pattern the engine rejects and otherwise yields the unanchored
    search on a subject string. *)

Class RegexEngine : Type :=
  regex_compile : string → string → option (string → bool).

(** The filter documents the handlers build: [{}] and
    [{ name: { $regex: pattern, $options: options } }]. *)
Inductive Filter : Type :=
  | FilterAll
  | FilterNameRegex (pattern : JSValue) (options : string).

Definition filter_pred {E : RegexEngine} (f : Filter)
  : option (Product.t → bool) :=
  match f with
  | FilterAll => Some (λ _, true)
  | FilterNameRegex (VString pattern) options =>
      match regex_compile pattern options with
      | Some m =>
          Some (λ p, match Product.name p with
                     | VString s => m s
                     | _ => false
                     end)
      | None => None
      end
  | FilterNameRegex _ _ => None
  end.

(** Comparison of two stored numbers in the store's sort order: [NaN]
    sorts below every number. *)
Definition rating_leb (a b : number) : bool :=
  match a, b with
  | NaN, _ => true
  | _, NaN => false
  | NegInf, _ => true
  | _, NegInf => false
  | _, PosInf => true
  | PosInf, _ => false
  | Fin x, Fin y => bool_decide (Qcle x y)
  end.

(** Sorting by [{ rating: -1 }]: descending, documents of equal rating
    staying in natural order. *)
Fixpoint insert_desc (x : Product.t) (l : list Product.t)
  : list Product.t :=
  match l with
  | [] => [x]
  | y :: l' =>
      if rating_leb (Product.rating y) (Product.rating x)
      then x :: y :: l'
      else y :: insert_desc x l'
  end.

Fixpoint sort_desc (l : list Product.t) : list Product.t :=
  match l with
  | [] => []
  | x :: l' => insert_desc x (sort_desc l')
  end.

Inductive SortSpec : Type := NaturalOrder | RatingDescending.

(** A query under construction: [Product.find(filter)] followed by
    [.sort], [.skip] and [.limit] in any order. *)
Record Query : Type := mkQuery {
  q_filter : Filter;
  q_sort : SortSpec;
  q_skip : number;
  q_limit : option nat;
}.

Definition find (f : Filter) : Query :=
  mkQuery f NaturalOrder Num.zero None.
Definition sort (s : SortSpec) (q : Query) : Query :=
  mkQuery (q_filter q) s (q_skip q) (q_limit q).
Definition skip (n : number) (q : Query) : Query :=
  mkQuery (q_filter q) (q_sort q) n (q_limit q).
Definition limit (n : nat) (q : Query) : Query :=
  mkQuery (q_filter q) (q_sort q) (q_skip q) (Some n).

(** ** The handler monad

    A handler runs against the collection and the response object
    ([res.statusCode], initially 200, and the body passed to
    [res.json]); it returns or throws. *)

Record World : Type := mkWorld {
  collection : list Product.t;
  statusCode : nat;
  sent : option Payload;
}.

Inductive Result (A : Type) : Type :=
  | Return (a : A)
  | Throw (message : string).
Arguments Return {A} a.
Arguments Throw {A} message.

Definition M (A : Type) : Type := World → Result A * World.

#[global] Instance M_ret : MRet M := λ A a w, (Return a, w).
#[global] Instance M_bind : MBind M := λ A B f m w,
  match m w with
  | (Return a, w') => f a w'
  | (Throw e, w') => (Throw e, w')
  end.

Definition throw {A} (message : string) : M A := λ w, (Throw message, w).

(** [res.status(code)] *)
Definition res_status (code : nat) : M unit := λ w,
  (Return (), mkWorld (collection w) code (sent w)).

(** [res.json(payload)] *)
Definition res_json (payload : Payload) : M unit := λ w,
  (Return (), mkWorld (collection w) (statusCode w) (Some payload)).

Definition has_id (id : ObjectId) (p : Product.t) : bool :=
  bool_decide (Product._id p = id).

(** [Product.findById(id)]: the document or [null]. *)
Definition findById (id : ObjectId) : M (option Product.t) := λ w,
  (Return (List.find (has_id id) (collection w)), w).

Fixpoint replace_doc (p : Product.t) (l : list Product.t)
  : list Product.t :=
  match l with
  | [] => [p]
  | d :: l' =>
      if has_id (Product._id p) d then p :: l' else d :: replace_doc p l'
  end.

(** [product.save()]: the stored document of that identifier is
    replaced in place, a new document is appended.  The schema of the
    collection is not part of this model: every document is accepted. *)
Definition save (p : Product.t) : M Product.t := λ w,
  (Return p,
   mkWorld (replace_doc p (collection w)) (statusCode w) (sent w)).

Definition store_error : string := "store: query rejected".

(** [Product.count(filter)] *)
Definition count {E : RegexEngine} (f : Filter) : M number := λ w,
  match filter_pred f with
  | Some P => (Return (Num.of_nat (length (List.filter P (collection w)))), w)
  | None => (Throw store_error, w)
  end.

(** Awaiting a query: filter, sort, skip, then limit.  An offset that
    is not a non-negative integer is rejected. *)
Definition exec {E : RegexEngine} (q : Query) : M (list Product.t) := λ w,
  match filter_pred (q_filter q), Num.to_nat (q_skip q) with
  | Some P, Some k =>
      let matched := List.filter P (collection w) in
      let sorted :=
        match q_sort q with
        | NaturalOrder => matched
        | RatingDescending => sort_desc matched
        end in
      let skipped := skipn k sorted in
      (Return (match q_limit q with
               | Some n => firstn n skipped
               | None => skipped
               end), w)
  | _, _ => (Throw store_error, w)
  end.

(** ** The handlers of the product controller *)

Definition pageSize : nat := 10.

Definition not_found {A} : M A :=
  res_status 404;; throw "Product not found".

(** [Number(req.query.pageNumber) || 1] *)
Definition page_number (req : Request) : number :=
  Num.or_else (Number (query_get req "pageNumber")) Num.one.

(** [req.query.keyword ? { name: { $regex: req.query.keyword,
    $options: 'i' } } : {}] *)
Definition keyword_filter (req : Request) : Filter :=
  if truthy (query_get req "keyword")
  then FilterNameRegex (query_get req "keyword") "i"
  else FilterAll.

(** GET /api/products *)
Definition getProducts {E : RegexEngine} (req : Request) : M unit :=
  let page := page_number req in
  let keyword := keyword_filter req in
  count ← count keyword;
  products ←
    exec (skip (Num.mul (Num.of_nat pageSize) (Num.sub page Num.one))
            (limit pageSize (find keyword)));
  res_json
    (ProductsPage products page
       (Num.ceil (Num.div count (Num.of_nat pageSize)))).

(** GET /api/products/:id *)
Definition getProductById (req : Request) : M unit :=
  product ← findById (params_id req);
  match product with
  | Some product => res_json (ProductDoc product)
  | None => not_found
  end.

(** PUT /api/products/:id *)
Definition updateProduct (req : Request) : M unit :=
  let name := body_get req "name" in
  let price := body_get req "price" in
  let description := body_get req "description" in
  let image := body_get req "image" in
  let brand := body_get req "brand" in
  let category := body_get req "category" in
  let countInStock := body_get req "countInStock" in
  product ← findById (params_id req);
  match product with
  | Some product =>
      let product := Product.set_name name product in
      let product := Product.set_price price product in
      let product := Product.set_description description product in
      let product := Product.set_image image product in
      let product := Product.set_brand brand product in
      let product := Product.set_countInStock countInStock product in
      updatedProduct ← save product;
      res_json (ProductDoc updatedProduct)
  | None => not_found
  end.

(** [reviews.reduce((acc, item) => item.rating + acc, 0)] *)
Definition sum_ratings (reviews : list Review.t) : number :=
  fold_left (λ acc item, Num.add (Review.rating item) acc) reviews Num.zero.

Definition same_user (id : ObjectId) (r : Review.t) : bool :=
  String.eqb (toString (Review.user r)) (toString id).

(** POST /api/products/:id/reviews *)
Definition createProductReview (req : Request) : M unit :=
  let rating := body_get req "rating" in
  let comment := body_get req "comment" in
  product ← findById (params_id req);
  match product with
  | Some product =>
      let alreadyReviewed :=
        List.find (same_user (User._id (user req)))
          (Product.reviews product) in
      match alreadyReviewed with
      | Some _ => res_status 400;; throw "Product already reviewed"
      | None =>
          let review :=
            Review.mk (User.name (user req)) (Number rating) comment
              (User._id (user req)) in
          let product :=
            Product.set_reviews (Product.reviews product ++ [review])
              product in
          let product :=
            Product.set_numReviews
              (Num.of_nat (length (Product.reviews product))) product in
          let product :=
            Product.set_rating
              (Num.div (sum_ratings (Product.reviews product))
                 (Num.of_nat (length (Product.reviews product))))
              product in
          save product;;
          res_status 201;;
          res_json (Message "Review added")
      end
  | None => not_found
  end.

(** GET /api/products/top *)
Definition getTopProducts {E : RegexEngine} (req : Request) : M unit :=
  products ← exec (limit 3 (sort RatingDescending (find FilterAll)));
  res_json (ProductList products).

(** ** Serving a request *)

Record HttpResponse : Type := mkHttp {
  http_status : nat;
  http_body : Payload;
}.

#[global] Instance HttpResponse_eq_dec : EqDecision HttpResponse.
Proof. solve_decision. Defined.

(** Modelled from the spec: [errorHandler] of
    [middleware/errorMiddleware.js], which is not among the sources.  It
    turns a raised error and the preset status into a [{ message }]
    body, with status 500 when no status was preset. *)
Definition errorHandler (message : string) (w : World) : HttpResponse :=
  mkHttp (if bool_decide (statusCode w = 200%nat) then 500%nat
          else statusCode w)
         (Message message).

(** [asyncHandler(handler)] mounted on a route: the handler runs on a
    fresh response object; what it throws goes to [errorHandler].  The
    result is the response on the wire, if any, and the collection
    afterwards. *)
Definition serve (handler : Request → M unit) (req : Request)
    (db : list Product.t) : option HttpResponse * list Product.t :=
  match handler req (mkWorld db 200 None) with
  | (Return _, w) => (mkHttp (statusCode w) <$> sent w, collection w)
  | (Throw e, w) => (Some (errorHandler e w), collection w)
  end.

(** ** Characters

    The characters with a meaning of their own in a regular expression,
    and the folding of the ASCII capital letters to small ones. *)

Definition regex_metacharacters : list ascii :=
  list_ascii_of_string "\^$.|?*+()[]{}".

Definition ascii_lower (c : ascii) : ascii :=
  let n := nat_of_ascii c in
  if bool_decide (65 ≤ n ≤ 90)%nat then ascii_of_nat (n + 32) else c.

(** ** A regular expression engine for plain patterns

    An instance of the engine interface that agrees with the store's
    Perl-compatible engine on the patterns it accepts: sequences of
    ordinary characters, the wildcard [.] and backslash-escaped
    punctuation, under the options [i] and [m].  Every other pattern or
    option is rejected, among them the patterns that are malformed for
    the store as well (an unmatched parenthesis, a trailing backslash). *)

Module PcreLite.

Local Open Scope char_scope.

Inductive item : Type :=
  | Lit (c : ascii)
  | AnyChar.

Definition is_meta (c : ascii) : bool :=
  bool_decide (c ∈ regex_metacharacters).

Definition is_alnum (c : ascii) : bool :=
  let n := nat_of_ascii c in
  bool_decide ((48 ≤ n ≤ 57) ∨ (65 ≤ n ≤ 90) ∨ (97 ≤ n ≤ 122))%nat.

Fixpoint parse (p : list ascii) : option (list item) :=
  match p with
  | [] => Some []
  | c :: r =>
      if bool_decide (c = "\") then
        match r with
        | e :: r' => if is_alnum e then None else cons (Lit e) <$> parse r'
        | [] => None
        end
      else if bool_decide (c = ".") then cons AnyChar <$> parse r
      else if is_meta c then None
      else cons (Lit c) <$> parse r
  end.

Definition item_matches (caseless : bool) (it : item) (c : ascii) : bool :=
  match it with
  | Lit l =>
      if caseless then bool_decide (ascii_lower l = ascii_lower c)
      else bool_decide (l = c)
  | AnyChar => negb (bool_decide (c = ascii_of_nat 10))
  end.

Fixpoint match_here (caseless : bool) (items : list item) (s : list ascii)
  : bool :=
  match items, s with
  | [], _ => true
  | it :: items', c :: s' =>
      item_matches caseless it c && match_here caseless items' s'
  | _ :: _, [] => false
  end.

Fixpoint search (caseless : bool) (items : list item) (s : list ascii)
  : bool :=
  match_here caseless items s ||
  match s with
  | [] => false
  | _ :: s' => search caseless items s'
  end.

Definition flags_ok (options : list ascii) : bool :=
  forallb (λ c, bool_decide (c = "i" ∨ c = "m")) options.

Definition compile (pattern options : string) : option (string → bool) :=
  let flags := list_ascii_of_string options in
  if flags_ok flags then
    match parse (list_ascii_of_string pattern) with
    | Some items =>
        Some (λ subject,
                search (bool_decide ("i" ∈ flags)) items
                  (list_ascii_of_string subject))
    | None => None
    end
  else None.

End PcreLite.

Definition pcre_lite : RegexEngine := PcreLite.compile.

(** * Specification vocabulary *)

(** The documents that match the filter of a request, in natural order,
    when the store accepts the filter. *)
Definition matches {E : RegexEngine} (req : Request) (db : list Product.t)
  : option (list Product.t) :=
  match filter_pred (keyword_filter req) with
  | Some P => Some (List.filter P db)
  | None => None
  end.

(** The page number as the specification words it: the coerced
    parameter, and 1 when the parameter is absent or not numeric, that
    is when the coercion yields [NaN]. *)
Definition claimed_page (v : JSValue) : number :=
  match Number v with
  | NaN => Num.one
  | n => n
  end.

(** The page number with the default taken for zero as well. *)
Definition coerced_page (v : JSValue) : number :=
  match Number v with
  | NaN => Num.one
  | Fin q => if bool_decide (q = Qc_of_Z 0) then Num.one else Fin q
  | n => n
  end.

(** [kw] occurs in [s] when ASCII letters are compared without case. *)
Definition ci_contains (kw s : string) : Prop :=
  ∃ pre suf : list ascii,
    map ascii_lower (list_ascii_of_string s)
    = pre ++ map ascii_lower (list_ascii_of_string kw) ++ suf.

(** A keyword of ASCII characters without regular expression
    metacharacters. *)
Definition plain (kw : string) : Prop :=
  Forall (λ c, (c ∉ regex_metacharacters) ∧ (nat_of_ascii c < 128)%nat)
    (list_ascii_of_string kw).

(** What every engine does with a plain pattern under the option [i]:
    it searches the subject for the pattern, letters compared without
    case. *)
Definition literal_engine (E : RegexEngine) : Prop :=
  ∀ kw : string, plain kw →
    ∃ m, regex_compile kw "i" = Some m ∧ ∀ s, m s = true ↔ ci_contains kw s.

(** The name of a product is a string containing [kw]. *)
Definition name_contains (kw : string) (p : Product.t) : Prop :=
  ∃ n, Product.name p = VString n ∧ ci_contains kw n.

(** The name of a product is a string accepted by [m]. *)
Definition name_accepted (m : string → bool) (p : Product.t) : bool :=
  match Product.name p with
  | VString s => m s
  | _ => false
  end.

(** The sum of the ratings of a list of reviews. *)
Definition total_rating (reviews : list Review.t) : number :=
  foldr Num.add Num.zero (map Review.rating reviews).

(** The mean of the ratings: their sum over their number. *)
Definition mean_rating (reviews : list Review.t) : number :=
  Num.div (total_rating reviews) (Num.of_nat (length reviews)).

(** The review a request submits. *)
Definition submitted_review (req : Request) : Review.t :=
  Review.mk (User.name (user req)) (Number (body_get req "rating"))
    (body_get req "comment") (User._id (user req)).

(** A product with one more review and the two derived fields computed
    from the extended list. *)
Definition with_review (r : Review.t) (p : Product.t) : Product.t :=
  Product.mk (Product._id p) (Product.user p) (Product.name p)
    (Product.image p) (Product.brand p) (Product.category p)
    (Product.description p) (Product.reviews p ++ [r])
    (mean_rating (Product.reviews p ++ [r]))
    (Num.of_nat (length (Product.reviews p ++ [r])))
    (Product.price p) (Product.countInStock p).

(** A product with the six fields of an update taken from the body of
    the request, and every other field kept. *)
Definition updated (req : Request) (p : Product.t) : Product.t :=
  Product.mk (Product._id p) (Product.user p) (body_get req "name")
    (body_get req "image") (body_get req "brand") (Product.category p)
    (body_get req "description") (Product.reviews p) (Product.rating p)
    (Product.numReviews p) (body_get req "price")
    (body_get req "countInStock").

(** Ratings from the highest to the lowest. *)
Definition rating_geq (a b : Product.t) : Prop :=
  rating_leb (Product.rating b) (Product.rating a) = true.

(** ** Sample data *)

Module Sample.

Local Open Scope string_scope.

Definition admin : ObjectId := mkObjectId "64a000000000000000000001".
Definition ann : User.t :=
  User.mk (mkObjectId "64b000000000000000000001") "Ann".
Definition bob : User.t :=
  User.mk (mkObjectId "64b000000000000000000002") "Bob".
Definition cho : User.t :=
  User.mk (mkObjectId "64b000000000000000000003") "Cho".

(** A product without reviews. *)
Definition product (id name : string) (rating : Z) : Product.t :=
  Product.mk (mkObjectId id) admin (VString name)
    (VString "/images/sample.jpg") (VString "Sample brand")
    (VString "Sample category") (VString "Sample description")
    [] (Num.of_Z rating) Num.zero (VNumber Num.zero) (VNumber Num.zero).

Definition letters : list string :=
  ["A"; "B"; "C"; "D"; "E"; "F"; "G"; "H"; "I"; "J"; "K"; "L"; "M";
   "N"; "O"; "P"; "Q"; "R"; "S"; "T"; "U"; "V"; "W"; "X"; "Y"].

(** Twenty-five products named [Shirt A] to [Shirt Y]. *)
Definition shirts : list Product.t :=
  map (λ l, product ("id-" ++ l) ("Shirt " ++ l) 0) letters.

(** A request by [user] on the product [id]. *)
Definition request (id : string) (user : User.t)
    (query : gmap string string) (body : gmap string JSValue) : Request :=
  mkRequest (mkObjectId id) query body user.

Definition shirt_a : Product.t := product "id-A" "Shirt A" 0.

Definition page_three : Request :=
  request "id-A" ann {[ "pageNumber" := "3" ]} ∅.

Definition page_zero : Request :=
  request "id-A" ann {[ "pageNumber" := "0" ]} ∅.

Definition keyword_dot : Request :=
  request "id-A" ann {[ "keyword" := "." ]} ∅.

Definition keyword_shirt : Request :=
  request "id-A" ann {[ "keyword" := "sHiRt b" ]} ∅.

(** Five products with the ratings 2, 5, 5, 1 and 4. *)
Definition rated : list Product.t :=
  [product "id-1" "Cap" 2; product "id-2" "Scarf" 5; product "id-3" "Belt" 5;
   product "id-4" "Sock" 1; product "id-5" "Glove" 4].

(** A review by [user]. *)
Definition review (user : User.t) (rating : Z) : Review.t :=
  Review.mk (User.name user) (Num.of_Z rating) (VString "Nice")
    (User._id user).

(** A mug reviewed by Ann (4) and Bob (5). *)
Definition mug : Product.t :=
  Product.mk (mkObjectId "id-mug") admin (VString "Mug")
    (VString "/images/mug.jpg") (VString "Royolty") (VString "Kitchen")
    (VString "A mug") [review ann 4; review bob 5]
    (Num.div (Num.of_Z 9) (Num.of_Z 2)) (Num.of_Z 2)
    (VNumber (Num.of_Z 12)) (VNumber (Num.of_Z 7)).

(** The mug after a third review, by Cho, of rating [rating]. *)
Definition mug_reviewed (rating mean : Z) : Product.t :=
  Product.mk (mkObjectId "id-mug") admin (VString "Mug")
    (VString "/images/mug.jpg") (VString "Royolty") (VString "Kitchen")
    (VString "A mug") [review ann 4; review bob 5; review cho rating]
    (Num.of_Z mean) (Num.of_Z 3)
    (VNumber (Num.of_Z 12)) (VNumber (Num.of_Z 7)).

(** POST /api/products/id-mug/reviews by [user]. *)
Definition post_review (user : User.t) (rating : JSValue) : Request :=
  request "id-mug" user ∅
    {[ "rating" := rating; "comment" := VString "Nice" ]}.

(** PUT /api/products/id-mug with a body that has a category and no
    description. *)
Definition put_mug : Request :=
  request "id-mug" ann ∅
    {[ "name" := VString "Big mug"; "price" := VNumber (Num.of_Z 15);
       "image" := VString "/images/big.jpg"; "brand" := VString "Royolty";
       "category" := VString "Garden";
       "countInStock" := VNumber (Num.of_Z 3) ]}.

End Sample.

(** * The remaining handlers of the controller *)

Fixpoint remove_doc (id : ObjectId) (l : list Product.t)
  : list Product.t :=
  match l with
  | [] => []
  | d :: l' => if has_id id d then l' else d :: remove_doc id l'
  end.

(** [product.remove()]: the stored document of that identifier is
    deleted. *)
Definition remove (p : Product.t) : M unit := λ w,
  (Return (),
   mkWorld (remove_doc (Product._id p) (collection w)) (statusCode w)
     (sent w)).

(** DELETE /api/products/:id *)
Definition deleteProduct (req : Request) : M unit :=
  product ← findById (params_id req);
  match product with
  | Some product =>
      remove product;;
      res_json (Message "Product Removed")
  | None => not_found
  end.

(** What [new Product({...})] takes from the model file, which is not
    among the sources: the identifier generated for the new document
    and the value the schema gives a [rating] that the handler leaves
    unset.  A list of reviews left unset is empty. *)
Record NewDocument : Type := mkNewDocument {
  new_id : ObjectId;
  default_rating : number;
}.

Definition duplicate_key : string := "store: duplicate key".

(** [product.save()] on a document made by [new Product({...})]: the
    document is inserted at the end of the collection; an identifier
    that is already stored is a duplicate key error. *)
Definition save_new (p : Product.t) : M Product.t := λ w,
  match List.find (has_id (Product._id p)) (collection w) with
  | Some _ => (Throw duplicate_key, w)
  | None =>
      (Return p, mkWorld (collection w ++ [p]) (statusCode w) (sent w))
  end.

(** POST /api/products *)
Definition createProduct (nd : NewDocument) (req : Request) : M unit :=
  let product :=
    Product.mk (new_id nd) (User._id (user req)) (VString "Sample Name")
      (VString "/images/sample.jpg") (VString "Sample brand")
      (VString "Sample category") (VString "Sample description")
      [] (default_rating nd) (Num.of_Z 0)
      (VNumber (Num.of_Z 0)) (VNumber (Num.of_Z 0)) in
  createdProduct ← save_new product;
  res_status 201;;
  res_json (ProductDoc createdProduct).

(** ** Sequences of requests *)

(** The routes of the controller. *)
Inductive Route : Type :=
  | GetProducts
  | GetProductById
  | DeleteProduct
  | CreateProduct (nd : NewDocument)
  | UpdateProduct
  | CreateProductReview
  | GetTopProducts.

Definition route_handler {E : RegexEngine} (r : Route) : Request → M unit :=
  match r with
  | GetProducts => getProducts
  | GetProductById => getProductById
  | DeleteProduct => deleteProduct
  | CreateProduct nd => createProduct nd
  | UpdateProduct => updateProduct
  | CreateProductReview => createProductReview
  | GetTopProducts => getTopProducts
  end.

(** The collection after serving one request, and after serving a
    sequence of requests one after the other. *)
Definition after {E : RegexEngine} (db : list Product.t)
    (call : Route * Request) : list Product.t :=
  snd (serve (route_handler (fst call)) (snd call) db).

Definition after_all {E : RegexEngine} (calls : list (Route * Request))
    (db : list Product.t) : list Product.t :=
  fold_left after calls db.

(** ** Invariants of a product *)

(** [numReviews] is the length of the list of reviews. *)
Definition counts_reviews (p : Product.t) : Prop :=
  Product.numReviews p = Num.of_nat (length (Product.reviews p)).

(** [rating] is the mean of the ratings, once there is a review. *)
Definition rating_is_mean (p : Product.t) : Prop :=
  Product.reviews p ≠ [] →
  Product.rating p = mean_rating (Product.reviews p).

(** No two reviews of the product are by the same user. *)
Definition one_review_per_user (p : Product.t) : Prop :=
  NoDup (Review.user <$> Product.reviews p).


(** ** More sample data *)

Module Sample2.

Local Open Scope string_scope.

Definition fresh : NewDocument :=
  mkNewDocument (mkObjectId "id-new") (Num.of_Z 0).

(** GET, PUT or DELETE on the product [id], by Ann. *)
Definition on (id : string) : Request := Sample.request id Sample.ann ∅ ∅.

Definition keyword_paren : Request :=
  Sample.request "id-A" Sample.ann {[ "keyword" := "(" ]} ∅.

(** A shop session: a product is created, reviewed twice by Cho (the
    second review is refused), updated, listed and deleted. *)
Definition session : list (Route * Request) :=
  [ (CreateProduct fresh, on "");
    (CreateProductReview,
     Sample.request "id-new" Sample.cho ∅ {[ "rating" := VNumber (Num.of_Z 5) ]});
    (CreateProductReview,
     Sample.request "id-new" Sample.cho ∅ {[ "rating" := VNumber (Num.of_Z 1) ]});
    (UpdateProduct, Sample.put_mug);
    (GetProducts, Sample.page_three);
    (DeleteProduct, on "id-mug") ].

End Sample2.

(** * Properties *)

(** ** Arithmetic of the number model *)

Section NumFacts.

Local Open Scope Qc_scope.

Lemma Qc_of_Z_this (z : Z) : this (Qc_of_Z z) = inject_Z z.
Proof. reflexivity. Qed.

Lemma Qfloor_of_Z (z : Z) : Qfloor (Qc_of_Z z) = z.
Proof. rewrite Qc_of_Z_this. apply Qfloor_Z. Qed.

Lemma Qc_of_Z_ten_nonzero : Qc_of_Z 10 ≠ Qc_of_Z 0.
Proof. intros E. apply Z2Qc_inj in E. discriminate. Qed.

(** The ceiling of [n / 10] over the rationals is the integer
    [(n + 9) / 10]. *)
Lemma Qceiling_div_ten (n : Z) :
  Qceiling (this (Qcdiv (Qc_of_Z n) (Qc_of_Z 10))) = ((n + 9) / 10)%Z.
Proof.
  unfold Qceiling.
  assert (E : (- this (Qcdiv (Qc_of_Z n) (Qc_of_Z 10)) == (- n) # 10)%Q).
  { unfold Qcdiv, Qcmult, Qcinv, Q2Qc. cbn [this].
    rewrite !Qred_correct. rewrite !Qc_of_Z_this.
    unfold Qeq, Qopp, Qmult, Qinv, inject_Z. cbn. lia. }
  rewrite (Qfloor_comp _ _ E). unfold Qfloor.
  assert (H := Z.div_mod (- n) 10 ltac:(lia)).
  assert (H' := Z.mod_pos_bound (- n) 10 ltac:(lia)).
  apply Z.div_unique with (r := (9 - (- n) mod 10)%Z); lia.
Qed.

End NumFacts.

Lemma ceil_div_pageSize (n : nat) :
  Num.ceil (Num.div (Num.of_nat n) (Num.of_nat pageSize))
  = Num.of_Z ((Z.of_nat n + 9) / 10).
Proof.
  unfold Num.div, Num.of_nat, Num.of_Z, pageSize. cbn [Num.ceil].
  change (Z.of_nat 10) with 10.
  rewrite bool_decide_eq_false_2 by apply Qc_of_Z_ten_nonzero.
  cbn [Num.ceil]. unfold Num.of_Z. by rewrite Qceiling_div_ten.
Qed.

Lemma to_nat_of_Z (z : Z) : 0 ≤ z → Num.to_nat (Num.of_Z z) = Some (Z.to_nat z).
Proof.
  intros Hz. unfold Num.to_nat, Num.of_Z. rewrite Qfloor_of_Z.
  rewrite bool_decide_eq_true_2 by done.
  by rewrite bool_decide_eq_true_2 by done.
Qed.

(** [pageSize * (page - 1)] for an integer page. *)
Lemma offset_of_Z (p : Z) :
  Num.mul (Num.of_nat pageSize) (Num.sub (Num.of_Z p) Num.one)
  = Num.of_Z (10 * (p - 1)).
Proof.
  unfold Num.mul, Num.sub, Num.add, Num.neg, Num.one, Num.of_nat, Num.of_Z,
    pageSize.
  change (Z.of_nat 10) with 10. f_equal.
  by rewrite Z2Qc_inj_mul, Z2Qc_inj_sub.
Qed.

(** ** Running the handlers *)

Section Handlers.

Context {E : RegexEngine}.

(** [getProducts] in one step: it throws exactly when the store rejects
    the filter or the offset, and otherwise sends the window of the
    matches that starts at the offset. *)
Lemma getProducts_run (req : Request) (w : World) :
  getProducts req w =
  match matches req (collection w),
        Num.to_nat (Num.mul (Num.of_nat pageSize)
                      (Num.sub (page_number req) Num.one)) with
  | Some ms, Some k =>
      (Return (),
       mkWorld (collection w) (statusCode w)
         (Some (ProductsPage (firstn pageSize (skipn k ms))
                  (page_number req)
                  (Num.ceil (Num.div (Num.of_nat (length ms))
                               (Num.of_nat pageSize))))))
  | _, _ => (Throw store_error, w)
  end.
Proof.
  unfold getProducts, matches, count, exec, mbind, M_bind, res_json.
  cbn [q_filter q_skip q_limit q_sort find skip limit].
  destruct (filter_pred (keyword_filter req)) as [P|]; [|done].
  cbn [collection statusCode sent].
  by destruct (Num.to_nat _).
Qed.

Lemma serve_getProducts (req : Request) (db ms : list Product.t) (k : nat) :
  matches req db = Some ms →
  Num.to_nat (Num.mul (Num.of_nat pageSize)
                (Num.sub (page_number req) Num.one)) = Some k →
  serve getProducts req db =
  (Some (mkHttp 200
     (ProductsPage (firstn pageSize (skipn k ms)) (page_number req)
        (Num.ceil (Num.div (Num.of_nat (length ms))
                     (Num.of_nat pageSize))))), db).
Proof.
  intros Hms Hk. unfold serve. rewrite getProducts_run.
  cbn [collection]. by rewrite Hms, Hk.
Qed.

Lemma serve_getProducts_inv (req : Request) (db db' : list Product.t)
    (st : nat) (products : list Product.t) (page pages : number) :
  serve getProducts req db
  = (Some (mkHttp st (ProductsPage products page pages)), db') →
  ∃ (ms : list Product.t) (k : nat),
    matches req db = Some ms
    ∧ products = firstn pageSize (skipn k ms)
    ∧ page = page_number req
    ∧ st = 200%nat ∧ db' = db.
Proof.
  unfold serve. rewrite getProducts_run. cbn [collection].
  destruct (matches req db) as [ms|]; [|by intros [=]].
  destruct (Num.to_nat _) as [k|]; [|by intros [=]].
  cbn. intros [= <- <- <- <- <-]. by exists ms, k.
Qed.

End Handlers.

(** ** Pagination *)

(** C1. For every catalogue and every integer page number [p ≥ 1],
    [getProducts] answers 200 with at most ten products, namely the
    matches after skipping [(p - 1) * 10] of them, and with [pages] the
    ceiling of the number of matches over ten (the least integer whose
    tenfold reaches that number); when nothing matches, the products
    are the empty list and [pages] is 0, and the answer is still a 200.
    The collection is left as it was. *)
Theorem getProducts_pagination {E : RegexEngine}
    (req : Request) (db ms : list Product.t) (p : Z) :
  matches req db = Some ms →
  page_number req = Num.of_Z p →
  1 ≤ p →
  ∃ (products : list Product.t) (pages : Z),
    serve getProducts req db =
      (Some (mkHttp 200
               (ProductsPage products (Num.of_Z p) (Num.of_Z pages))), db)
    ∧ products = firstn 10 (skipn (Z.to_nat ((p - 1) * 10)) ms)
    ∧ (length products ≤ 10)%nat
    ∧ 10 * (pages - 1) < Z.of_nat (length ms) ≤ 10 * pages
    ∧ (ms = [] → products = [] ∧ pages = 0).
Proof.
  intros Hms Hp Hge.
  exists (firstn 10 (skipn (Z.to_nat ((p - 1) * 10)) ms)),
    ((Z.of_nat (length ms) + 9) / 10).
  split; [|split; [done|split; [|split]]].
  - rewrite (serve_getProducts req db ms (Z.to_nat (10 * (p - 1)))); [|done|].
    + rewrite Hp, ceil_div_pageSize.
      by replace (10 * (p - 1)) with ((p - 1) * 10) by lia.
    + rewrite Hp, offset_of_Z. apply to_nat_of_Z. lia.
  - rewrite length_firstn. lia.
  - assert (Hd := Z.div_mod (Z.of_nat (length ms) + 9) 10 ltac:(lia)).
    assert (Hm := Z.mod_pos_bound (Z.of_nat (length ms) + 9) 10 ltac:(lia)).
    lia.
  - intros ->. split; [by rewrite skipn_nil|reflexivity].
Qed.

Lemma getProducts_pagination_witness :
  ∃ (products : list Product.t) (pages : Z),
    serve (getProducts (E:=pcre_lite)) Sample.page_three Sample.shirts =
      (Some (mkHttp 200
               (ProductsPage products (Num.of_Z 3) (Num.of_Z pages))),
       Sample.shirts)
    ∧ products = firstn 10 (skipn (Z.to_nat ((3 - 1) * 10)) Sample.shirts)
    ∧ (length products ≤ 10)%nat
    ∧ 10 * (pages - 1) < Z.of_nat (length Sample.shirts) ≤ 10 * pages
    ∧ (Sample.shirts = [] → products = [] ∧ pages = 0).
Proof.
  apply (getProducts_pagination (E:=pcre_lite)
           Sample.page_three Sample.shirts Sample.shirts 3).
  - vm_compute. reflexivity.
  - compute_done.
  - lia.
Defined.

(** The scenario of the specification: of twenty-five shirts, page 3
    holds the last five, and there are three pages. *)
Example getProducts_scenario :
  serve (getProducts (E:=pcre_lite)) Sample.page_three Sample.shirts
  = (Some (mkHttp 200
       (ProductsPage
          (map (λ l, Sample.product ("id-" ++ l) ("Shirt " ++ l) 0)
             ["U"; "V"; "W"; "X"; "Y"])
          (Num.of_Z 3) (Num.of_Z 3))),
     Sample.shirts).
Proof. compute_done. Qed.

(** ** The page number *)

(** C8, as the specification words it, fails for the parameter ["0"]:
    it is numeric and coerces to zero, yet the page used is 1. *)
Lemma page_number_counterexample :
  Number (query_get Sample.page_zero "pageNumber") = Num.zero
  ∧ claimed_page (query_get Sample.page_zero "pageNumber") = Num.zero
  ∧ page_number Sample.page_zero = Num.one
  ∧ page_number Sample.page_zero
    ≠ claimed_page (query_get Sample.page_zero "pageNumber")
  ∧ serve (getProducts (E:=pcre_lite)) Sample.page_zero []
    = (Some (mkHttp 200 (ProductsPage [] Num.one Num.zero)), []).
Proof. repeat split; compute_done. Qed.

(** C8, amended. The page number used by [getProducts] is the query
    parameter coerced to a number, and 1 when that coercion yields
    [NaN] (the parameter is absent or not numeric) or zero; this is the
    page number every answer of [getProducts] reports. *)
Theorem getProducts_page_number {E : RegexEngine}
    (req : Request) (db : list Product.t) :
  page_number req = coerced_page (query_get req "pageNumber")
  ∧ (query req !! "pageNumber" = None → page_number req = Num.one)
  ∧ (∀ st products page pages db',
       serve getProducts req db
       = (Some (mkHttp st (ProductsPage products page pages)), db') →
       page = coerced_page (query_get req "pageNumber")).
Proof.
  assert (Hpage :
    page_number req = coerced_page (query_get req "pageNumber")).
  { unfold page_number, coerced_page, Num.or_else.
    destruct (Number _) as [| | |q]; cbn [Num.truthy]; try done.
    by destruct (bool_decide (q = Qc_of_Z 0)). }
  split; [done|split].
  - intros Hq. unfold page_number, query_get. by rewrite Hq.
  - intros st products page pages db' Hs.
    apply serve_getProducts_inv in Hs as (ms & k & _ & _ & -> & _).
    done.
Qed.

(** ** The plain-pattern engine searches for substrings *)

Module PcreLiteFacts.
Import PcreLite.

Lemma parse_plain (l : list ascii) :
  Forall (λ c, c ∉ regex_metacharacters) l → parse l = Some (map Lit l).
Proof.
  induction 1 as [|c l Hc _ IH]; [done|].
  cbn [parse map].
  rewrite bool_decide_eq_false_2.
  2:{ intros ->. apply Hc. compute_done. }
  rewrite bool_decide_eq_false_2.
  2:{ intros ->. apply Hc. compute_done. }
  unfold is_meta. rewrite bool_decide_eq_false_2 by done.
  by rewrite IH.
Qed.

Lemma match_here_lit (kw s : list ascii) :
  match_here true (map Lit kw) s = true
  ↔ ∃ suf, map ascii_lower s = map ascii_lower kw ++ suf.
Proof.
  revert s. induction kw as [|k kw IH]; intros s; cbn [map match_here].
  - split; [intros _; by eexists|done].
  - destruct s as [|c s]; cbn [map].
    + split; [done|]. by intros [suf [=]].
    + cbn [item_matches]. rewrite andb_true_iff, bool_decide_eq_true, IH.
      split.
      * intros [-> [suf ->]]. by exists suf.
      * intros [suf [= -> ->]]. split; [done|by exists suf].
Qed.

Lemma search_lit (kw s : list ascii) :
  search true (map Lit kw) s = true
  ↔ ∃ pre suf, map ascii_lower s = pre ++ map ascii_lower kw ++ suf.
Proof.
  induction s as [|c s IH]; cbn [search]; rewrite orb_true_iff, match_here_lit.
  - split.
    + intros [[suf E]|[=]]. by exists [], suf.
    + intros (pre & suf & E). left. cbn [map] in E. symmetry in E.
      apply app_eq_nil in E as [-> E]. by exists suf.
  - rewrite IH. split.
    + intros [[suf E]|(pre & suf & E)].
      * by exists [], suf.
      * exists (ascii_lower c :: pre), suf. cbn [map]. by rewrite E.
    + intros ([|x pre] & suf & E).
      * left. by exists suf.
      * right. cbn [map] in E. injection E as _ E. by exists pre, suf.
Qed.

End PcreLiteFacts.

Lemma pcre_lite_literal : literal_engine pcre_lite.
Proof.
  intros kw Hkw. unfold regex_compile, pcre_lite, PcreLite.compile.
  cbn [list_ascii_of_string PcreLite.flags_ok forallb].
  rewrite bool_decide_eq_true_2 by (by left). cbn [andb].
  rewrite PcreLiteFacts.parse_plain
    by (eapply Forall_impl; [exact Hkw|by intros c [Hc _]]).
  eexists. split; [reflexivity|]. intros s. cbn beta.
  rewrite bool_decide_eq_true_2 by (apply list_elem_of_here).
  apply PcreLiteFacts.search_lit.
Qed.

(** ** The keyword filter *)

Lemma filter_all (db : list Product.t) :
  List.filter (λ _ : Product.t, true) db = db.
Proof. induction db as [|p db IH]; [done|]. cbn. by rewrite IH. Qed.

Lemma matches_no_keyword {E : RegexEngine} (req : Request) (db : list Product.t) :
  truthy (query_get req "keyword") = false → matches req db = Some db.
Proof.
  intros Hk. unfold matches, keyword_filter. rewrite Hk.
  cbn [filter_pred]. by rewrite filter_all.
Qed.

Lemma matches_keyword {E : RegexEngine} (req : Request) (db : list Product.t)
    (kw : string) :
  query req !! "keyword" = Some kw → kw ≠ EmptyString →
  matches req db
  = (λ m, List.filter (name_accepted m) db) <$> regex_compile kw "i".
Proof.
  intros Hq Hne. unfold matches, keyword_filter, query_get. rewrite Hq.
  cbn [truthy]. rewrite bool_decide_eq_false_2 by done.
  cbn [negb filter_pred]. by destruct (regex_compile kw "i").
Qed.

(** C5, as the specification words it, fails for the keyword ["."]: the
    wildcard makes [Shirt A] match although its name does not contain a
    full stop. *)
Lemma keyword_counterexample :
  serve (getProducts (E:=pcre_lite)) Sample.keyword_dot [Sample.shirt_a]
  = (Some (mkHttp 200 (ProductsPage [Sample.shirt_a] Num.one Num.one)),
     [Sample.shirt_a])
  ∧ Product.name Sample.shirt_a = VString "Shirt A"
  ∧ ¬ ci_contains "." "Shirt A".
Proof.
  split; [compute_done|split; [reflexivity|]].
  intros (pre & suf & E).
  assert (Hin : "."%char
                ∈ map ascii_lower (list_ascii_of_string "Shirt A")).
  { rewrite E. cbn. set_solver. }
  revert Hin. compute_done.
Qed.

(** C5, amended. [getProducts] hands a non-empty keyword to the store
    unescaped, as a regular expression under the option [i], and
    answers only with products whose name that expression accepts; for
    a keyword without metacharacters these are exactly the products
    whose name contains the keyword as a case-insensitive substring.
    When the keyword is absent or empty no name filter is applied and
    every product matches. *)
Theorem getProducts_keyword {E : RegexEngine}
    (req : Request) (db : list Product.t) :
  literal_engine E →
  ((query req !! "keyword" = None ∨ query req !! "keyword" = Some EmptyString) →
     matches req db = Some db)
  ∧ (∀ kw : string, query req !! "keyword" = Some kw → kw ≠ EmptyString →
       matches req db
       = (λ m, List.filter (name_accepted m) db) <$> regex_compile kw "i"
       ∧ (plain kw →
          ∃ ms, matches req db = Some ms
                ∧ ∀ p, p ∈ ms ↔ p ∈ db ∧ name_contains kw p))
  ∧ (∀ st products page pages db',
       serve getProducts req db
       = (Some (mkHttp st (ProductsPage products page pages)), db') →
       ∃ ms, matches req db = Some ms ∧ products `sublist_of` ms).
Proof.
  intros Hlit. split; [|split].
  - intros Hq. apply matches_no_keyword. unfold query_get.
    by destruct Hq as [-> | ->].
  - intros kw Hq Hne. split; [by apply matches_keyword|].
    intros Hplain. rewrite (matches_keyword req db kw Hq Hne).
    destruct (Hlit kw Hplain) as (m & -> & Hm).
    eexists. split; [reflexivity|]. intros p.
    rewrite list_elem_of_In, filter_In, <-list_elem_of_In.
    unfold name_accepted, name_contains.
    split.
    + intros [Hp Hacc]. split; [done|].
      destruct (Product.name p) as [| | | |n]; try done.
      exists n. split; [done|by apply Hm].
    + intros [Hp (n & -> & Hc)]. split; [done|by apply Hm].
  - intros st products page pages db' Hs.
    apply serve_getProducts_inv in Hs as (ms & k & Hms & -> & _).
    exists ms. split; [done|].
    etrans; [apply sublist_take|apply sublist_drop].
Qed.

Lemma getProducts_keyword_witness :
  ∃ ms, matches (E:=pcre_lite) Sample.keyword_shirt Sample.shirts = Some ms
        ∧ ∀ p, p ∈ ms ↔ p ∈ Sample.shirts ∧ name_contains "sHiRt b" p.
Proof.
  apply (proj2 (proj1 (proj2
           (getProducts_keyword (E:=pcre_lite)
              Sample.keyword_shirt Sample.shirts pcre_lite_literal))
           "sHiRt b" eq_refl ltac:(discriminate))).
  compute_done.
Defined.

(** The keyword [sHiRt b] finds [Shirt B] and nothing else. *)
Example getProducts_keyword_shirt_b :
  serve (getProducts (E:=pcre_lite)) Sample.keyword_shirt Sample.shirts
  = (Some (mkHttp 200
       (ProductsPage [Sample.product "id-B" "Shirt B" 0] Num.one Num.one)),
     Sample.shirts).
Proof. compute_done. Qed.

(** ** Addition of numbers *)

Lemma add_comm (a b : number) : Num.add a b = Num.add b a.
Proof. destruct a, b; cbn; try done. by rewrite Qcplus_comm. Qed.

Lemma add_assoc (a b c : number) :
  Num.add a (Num.add b c) = Num.add (Num.add a b) c.
Proof. destruct a, b, c; cbn; try done. by rewrite Qcplus_assoc. Qed.

Lemma add_zero_r (a : number) : Num.add a Num.zero = a.
Proof.
  destruct a as [| | |q]; cbn; try done.
  by rewrite Z2Qc_inj_0, Qcplus_0_r.
Qed.

Lemma fold_left_ratings (reviews : list Review.t) (a : number) :
  fold_left (λ acc item, Num.add (Review.rating item) acc) reviews a
  = Num.add (total_rating reviews) a.
Proof.
  unfold total_rating.
  revert a. induction reviews as [|r reviews IH]; intros a;
    cbn [fold_left map foldr].
  - by rewrite add_comm, add_zero_r.
  - rewrite IH, !add_assoc. f_equal. apply add_comm.
Qed.

(** The left-to-right reduction of the handler adds up the ratings. *)
Lemma sum_ratings_total (reviews : list Review.t) :
  sum_ratings reviews = total_rating reviews.
Proof. unfold sum_ratings. by rewrite fold_left_ratings, add_zero_r. Qed.

(** ** The store *)

Lemma find_replace_doc (id : ObjectId) (p p0 : Product.t)
    (db : list Product.t) :
  Product._id p = id →
  List.find (has_id id) db = Some p0 →
  List.find (has_id id) (replace_doc p db) = Some p.
Proof.
  intros <-. induction db as [|d db IH]; [done|].
  cbn [List.find replace_doc].
  destruct (has_id (Product._id p) d) eqn:Hd.
  - intros _. cbn [List.find]. unfold has_id.
    by rewrite bool_decide_eq_true_2.
  - cbn [List.find]. by rewrite Hd.
Qed.

Lemma find_has_id (id : ObjectId) (p : Product.t) (db : list Product.t) :
  List.find (has_id id) db = Some p → p ∈ db ∧ Product._id p = id.
Proof.
  intros Hf. apply find_some in Hf as [Hin Hid].
  split; [by apply list_elem_of_In|].
  by apply bool_decide_eq_true in Hid.
Qed.

Lemma find_has_id_None (id : ObjectId) (db : list Product.t) :
  List.find (has_id id) db = None ↔ ∀ p, p ∈ db → Product._id p ≠ id.
Proof.
  split.
  - intros Hf p Hin Hid. apply list_elem_of_In in Hin.
    apply (find_none _ _ Hf) in Hin.
    apply bool_decide_eq_false in Hin. done.
  - intros Hall. destruct (List.find (has_id id) db) as [p|] eqn:Hf; [|done].
    apply find_has_id in Hf as [Hin Hid]. by destruct (Hall p Hin).
Qed.

Lemma find_unique (id : ObjectId) (p : Product.t) (db : list Product.t) :
  NoDup (Product._id <$> db) → p ∈ db → Product._id p = id →
  List.find (has_id id) db = Some p.
Proof.
  intros Hnd Hin <-. induction db as [|d db IH]; [by apply elem_of_nil in Hin|].
  rewrite fmap_cons in Hnd. apply NoDup_cons in Hnd as [Hd Hnd].
  cbn [List.find]. unfold has_id at 1. case_bool_decide as Hid.
  - apply elem_of_cons in Hin as [->|Hin]; [done|].
    destruct Hd. rewrite Hid. by apply list_elem_of_fmap_2.
  - apply elem_of_cons in Hin as [->|Hin]; [done|]. by apply IH.
Qed.

(** ** Running the handlers of a single product *)

Lemma getProductById_run (req : Request) (w : World) :
  getProductById req w =
  match List.find (has_id (params_id req)) (collection w) with
  | Some p =>
      (Return (),
       mkWorld (collection w) (statusCode w) (Some (ProductDoc p)))
  | None =>
      (Throw "Product not found", mkWorld (collection w) 404 (sent w))
  end.
Proof.
  unfold getProductById, findById, mbind, M_bind.
  by destruct (List.find _ _).
Qed.

Lemma updateProduct_run (req : Request) (w : World) :
  updateProduct req w =
  match List.find (has_id (params_id req)) (collection w) with
  | Some p =>
      (Return (),
       mkWorld (replace_doc (updated req p) (collection w)) (statusCode w)
         (Some (ProductDoc (updated req p))))
  | None =>
      (Throw "Product not found", mkWorld (collection w) 404 (sent w))
  end.
Proof.
  unfold updateProduct, findById, mbind, M_bind.
  by destruct (List.find _ _).
Qed.

Lemma createProductReview_run (req : Request) (w : World) :
  createProductReview req w =
  match List.find (has_id (params_id req)) (collection w) with
  | Some p =>
      match List.find (same_user (User._id (user req))) (Product.reviews p)
      with
      | Some _ =>
          (Throw "Product already reviewed",
           mkWorld (collection w) 400 (sent w))
      | None =>
          (Return (),
           mkWorld
             (replace_doc (with_review (submitted_review req) p)
                (collection w))
             201 (Some (Message "Review added")))
      end
  | None =>
      (Throw "Product not found", mkWorld (collection w) 404 (sent w))
  end.
Proof.
  unfold createProductReview, findById, mbind, M_bind.
  destruct (List.find _ (collection w)) as [p|]; [|done].
  destruct (List.find _ (Product.reviews p)); [done|].
  unfold save, res_status, res_json.
  cbn [collection statusCode sent Product.reviews Product.set_reviews
       Product.set_numReviews Product.set_rating].
  rewrite sum_ratings_total. reflexivity.
Qed.

Lemma serve_createProductReview (req : Request) (db : list Product.t) :
  serve createProductReview req db =
  match List.find (has_id (params_id req)) db with
  | Some p =>
      match List.find (same_user (User._id (user req))) (Product.reviews p)
      with
      | Some _ => (Some (mkHttp 400 (Message "Product already reviewed")), db)
      | None =>
          (Some (mkHttp 201 (Message "Review added")),
           replace_doc (with_review (submitted_review req) p) db)
      end
  | None => (Some (mkHttp 404 (Message "Product not found")), db)
  end.
Proof.
  unfold serve. rewrite createProductReview_run. cbn [collection].
  destruct (List.find _ db) as [p|]; [|done].
  by destruct (List.find _ (Product.reviews p)).
Qed.

Lemma find_same_user_None (id : ObjectId) (reviews : list Review.t) :
  List.find (same_user id) reviews = None
  ↔ ∀ r, r ∈ reviews → Review.user r ≠ id.
Proof.
  split.
  - intros Hf r Hin Hr. apply list_elem_of_In in Hin.
    apply (find_none _ _ Hf) in Hin. unfold same_user in Hin.
    rewrite Hr in Hin. by rewrite String.eqb_refl in Hin.
  - intros Hall.
    destruct (List.find (same_user id) reviews) as [r|] eqn:Hf; [|done].
    apply find_some in Hf as [Hin Hr]. apply list_elem_of_In in Hin.
    unfold same_user in Hr. apply String.eqb_eq in Hr.
    destruct (Hall r Hin). destruct (Review.user r), id. cbn in Hr.
    by rewrite Hr.
Qed.

(** ** Reviews *)

(** C2. After every successful [createProductReview] (the 201 answer),
    the stored product has [numReviews] equal to the length of its
    reviews list and [rating] equal to the sum of the ratings of all its
    reviews divided by their number, whatever [rating] and [numReviews]
    were stored before. *)
Theorem createProductReview_recomputes
    (req : Request) (db db' : list Product.t) :
  serve createProductReview req db
  = (Some (mkHttp 201 (Message "Review added")), db') →
  ∃ p' : Product.t,
    List.find (has_id (params_id req)) db' = Some p'
    ∧ Product.numReviews p' = Num.of_nat (length (Product.reviews p'))
    ∧ Product.rating p'
      = Num.div (total_rating (Product.reviews p'))
          (Num.of_nat (length (Product.reviews p'))).
Proof.
  rewrite serve_createProductReview.
  destruct (List.find _ db) as [p|] eqn:Hp; [|by intros [=]].
  destruct (List.find _ (Product.reviews p)); [by intros [=]|].
  intros [= <-]. exists (with_review (submitted_review req) p).
  split; [|done].
  apply find_has_id in Hp as Hp'. destruct Hp' as [_ Hid].
  by apply (find_replace_doc _ _ p).
Qed.

Lemma createProductReview_recomputes_witness :
  ∃ p' : Product.t,
    List.find (has_id (params_id (Sample.post_review Sample.cho
                                    (VNumber (Num.of_Z 3)))))
      [Sample.mug_reviewed 3 4] = Some p'
    ∧ Product.numReviews p' = Num.of_nat (length (Product.reviews p'))
    ∧ Product.rating p'
      = Num.div (total_rating (Product.reviews p'))
          (Num.of_nat (length (Product.reviews p'))).
Proof.
  apply (createProductReview_recomputes
           (Sample.post_review Sample.cho (VNumber (Num.of_Z 3)))
           [Sample.mug] [Sample.mug_reviewed 3 4]).
  compute_done.
Defined.

(** C3. When the user of the request already has a review on the
    product, [createProductReview] answers 400 with the message
    [Product already reviewed] and the collection, hence the product
    with its reviews, [numReviews] and [rating], is exactly as before. *)
Theorem createProductReview_duplicate
    (req : Request) (db : list Product.t) (p : Product.t) (r : Review.t) :
  List.find (has_id (params_id req)) db = Some p →
  r ∈ Product.reviews p →
  Review.user r = User._id (user req) →
  serve createProductReview req db
  = (Some (mkHttp 400 (Message "Product already reviewed")), db).
Proof.
  intros Hp Hr Hu. rewrite serve_createProductReview, Hp.
  destruct (List.find _ (Product.reviews p)) eqn:Hf; [done|].
  by destruct (proj1 (find_same_user_None _ _) Hf r Hr).
Qed.

Lemma createProductReview_duplicate_witness :
  serve createProductReview
    (Sample.post_review Sample.ann (VNumber (Num.of_Z 1))) [Sample.mug]
  = (Some (mkHttp 400 (Message "Product already reviewed")), [Sample.mug]).
Proof.
  apply (createProductReview_duplicate
           (Sample.post_review Sample.ann (VNumber (Num.of_Z 1)))
           [Sample.mug] Sample.mug (Sample.review Sample.ann 4)).
  - reflexivity.
  - apply list_elem_of_here.
  - reflexivity.
Defined.

(** C9. Whatever value the body gives for [rating], when the product
    exists and the user has no review on it, [createProductReview]
    answers 201; the review it stores carries [Number(rating)], with no
    check of its range, and the stored [rating] of the product is the
    mean over the list that includes it. *)
Theorem createProductReview_any_rating
    (req : Request) (db : list Product.t) (p : Product.t) :
  List.find (has_id (params_id req)) db = Some p →
  (∀ r, r ∈ Product.reviews p → Review.user r ≠ User._id (user req)) →
  ∃ p' : Product.t,
    serve createProductReview req db
    = (Some (mkHttp 201 (Message "Review added")), replace_doc p' db)
    ∧ List.find (has_id (params_id req)) (replace_doc p' db) = Some p'
    ∧ Product.reviews p'
      = Product.reviews p
        ++ [Review.mk (User.name (user req)) (Number (body_get req "rating"))
              (body_get req "comment") (User._id (user req))]
    ∧ Product.rating p' = mean_rating (Product.reviews p')
    ∧ Product.numReviews p' = Num.of_nat (S (length (Product.reviews p))).
Proof.
  intros Hp Hnew. exists (with_review (submitted_review req) p).
  rewrite serve_createProductReview, Hp.
  rewrite (proj2 (find_same_user_None _ _) Hnew).
  split; [done|split; [|split; [done|split; [done|]]]].
  - apply find_has_id in Hp as Hp'. destruct Hp' as [_ Hid].
    by apply (find_replace_doc _ _ p).
  - cbn. by rewrite length_app, Nat.add_1_r.
Qed.

Lemma createProductReview_any_rating_witness :
  ∃ p' : Product.t,
    serve createProductReview
      (Sample.post_review Sample.cho (VNumber (Num.of_Z 11))) [Sample.mug]
    = (Some (mkHttp 201 (Message "Review added")),
       replace_doc p' [Sample.mug])
    ∧ List.find
        (has_id (params_id (Sample.post_review Sample.cho
                              (VNumber (Num.of_Z 11)))))
        (replace_doc p' [Sample.mug]) = Some p'
    ∧ Product.reviews p'
      = Product.reviews Sample.mug
        ++ [Review.mk "Cho" (Number (VNumber (Num.of_Z 11)))
              (VString "Nice") (User._id Sample.cho)]
    ∧ Product.rating p' = mean_rating (Product.reviews p')
    ∧ Product.numReviews p'
      = Num.of_nat (S (length (Product.reviews Sample.mug))).
Proof.
  apply (createProductReview_any_rating
           (Sample.post_review Sample.cho (VNumber (Num.of_Z 11)))
           [Sample.mug] Sample.mug).
  - reflexivity.
  - apply Forall_forall. compute_done.
Defined.

(** A rating of 11 is stored as it is: the mean of 4, 5 and 11 is 20/3. *)
Example createProductReview_eleven :
  serve createProductReview
    (Sample.post_review Sample.cho (VNumber (Num.of_Z 11))) [Sample.mug]
  = (Some (mkHttp 201 (Message "Review added")),
     [Product.set_rating (Num.div (Num.of_Z 20) (Num.of_Z 3))
        (Sample.mug_reviewed 11 0)]).
Proof. compute_done. Qed.

(** A rating that is not numeric is stored as [NaN], and so is the mean. *)
Example createProductReview_not_numeric :
  ∃ p', serve createProductReview
          (Sample.post_review Sample.cho (VString "five")) [Sample.mug]
        = (Some (mkHttp 201 (Message "Review added")), [p'])
        ∧ Product.rating p' = NaN.
Proof. eexists. split; [reflexivity|compute_done]. Qed.

(** The scenario of the specification: ratings 4 and 5, then a third
    review of rating 3, give three reviews and a rating of 4. *)
Example createProductReview_scenario :
  serve createProductReview
    (Sample.post_review Sample.cho (VNumber (Num.of_Z 3))) [Sample.mug]
  = (Some (mkHttp 201 (Message "Review added")), [Sample.mug_reviewed 3 4]).
Proof. compute_done. Qed.

(** A second review by the same user, right after the first, is
    refused and changes nothing. *)
Lemma createProductReview_twice (req : Request) (db db' : list Product.t) :
  serve createProductReview req db
  = (Some (mkHttp 201 (Message "Review added")), db') →
  serve createProductReview req db'
  = (Some (mkHttp 400 (Message "Product already reviewed")), db').
Proof.
  rewrite !serve_createProductReview.
  destruct (List.find _ db) as [p|] eqn:Hp; [|by intros [=]].
  destruct (List.find _ (Product.reviews p)); [by intros [=]|].
  intros [= <-].
  apply find_has_id in Hp as Hp'. destruct Hp' as [_ Hid].
  rewrite (find_replace_doc _ (with_review (submitted_review req) p) p db)
    by done.
  destruct (List.find _ (Product.reviews (with_review _ p))) eqn:Hf; [done|].
  destruct (proj1 (find_same_user_None _ _) Hf (submitted_review req)).
  - cbn. apply elem_of_app. right. apply list_elem_of_here.
  - done.
Qed.

(** ** Fetching one product *)

Lemma serve_getProductById (req : Request) (db : list Product.t) :
  serve getProductById req db =
  match List.find (has_id (params_id req)) db with
  | Some p => (Some (mkHttp 200 (ProductDoc p)), db)
  | None => (Some (mkHttp 404 (Message "Product not found")), db)
  end.
Proof.
  unfold serve. rewrite getProductById_run. cbn [collection].
  by destruct (List.find _ db).
Qed.

(** C4. [getProductById] answers 200 with a stored document of the
    requested identifier when there is one (the document itself when
    identifiers are unique), and it answers 404 with [Product not found]
    exactly when no stored document has that identifier. *)
Theorem getProductById_found_or_404 (req : Request) (db : list Product.t) :
  (∀ p, p ∈ db → Product._id p = params_id req →
     ∃ p', p' ∈ db ∧ Product._id p' = params_id req
           ∧ serve getProductById req db
             = (Some (mkHttp 200 (ProductDoc p')), db))
  ∧ (∀ p, NoDup (Product._id <$> db) → p ∈ db →
       Product._id p = params_id req →
       serve getProductById req db = (Some (mkHttp 200 (ProductDoc p)), db))
  ∧ (serve getProductById req db
     = (Some (mkHttp 404 (Message "Product not found")), db)
     ↔ ∀ p, p ∈ db → Product._id p ≠ params_id req).
Proof.
  rewrite serve_getProductById.
  assert (Hex : ∀ p, p ∈ db → Product._id p = params_id req →
            ∃ p', List.find (has_id (params_id req)) db = Some p').
  { intros p Hin Hid.
    destruct (List.find _ db) as [p'|] eqn:Hf; [by exists p'|].
    by destruct (proj1 (find_has_id_None _ _) Hf p Hin). }
  split; [|split].
  - intros p Hin Hid. destruct (Hex p Hin Hid) as [p' Hf]. rewrite Hf.
    apply find_has_id in Hf as [Hin' Hid']. by exists p'.
  - intros p Hnd Hin Hid. by rewrite (find_unique _ p db).
  - destruct (List.find _ db) as [p'|] eqn:Hf.
    + split; [by intros [=]|]. intros Hall.
      apply find_has_id in Hf as [Hin Hid]. by destruct (Hall p' Hin).
    + split; [|done]. intros _. by apply find_has_id_None.
Qed.

(** ** Updating a product *)

Lemma serve_updateProduct (req : Request) (db : list Product.t) :
  serve updateProduct req db =
  match List.find (has_id (params_id req)) db with
  | Some p =>
      (Some (mkHttp 200 (ProductDoc (updated req p))),
       replace_doc (updated req p) db)
  | None => (Some (mkHttp 404 (Message "Product not found")), db)
  end.
Proof.
  unfold serve. rewrite updateProduct_run. cbn [collection].
  by destruct (List.find _ db).
Qed.

Lemma updateProduct_stored (req : Request) (db : list Product.t)
    (p : Product.t) :
  List.find (has_id (params_id req)) db = Some p →
  List.find (has_id (params_id req)) (replace_doc (updated req p) db)
  = Some (updated req p).
Proof.
  intros Hp. apply find_has_id in Hp as Hp'. destruct Hp' as [_ Hid].
  by apply (find_replace_doc _ _ p).
Qed.

(** C6. For an existing product, [updateProduct] answers 200 with the
    stored document in which [name], [price], [description], [image],
    [brand] and [countInStock] are what the body supplies, [undefined]
    for a property the body lacks, while [category], although read from
    the body, keeps its stored value. *)
Theorem updateProduct_overwrites
    (req : Request) (db : list Product.t) (p : Product.t) :
  List.find (has_id (params_id req)) db = Some p →
  ∃ p' : Product.t,
    serve updateProduct req db
    = (Some (mkHttp 200 (ProductDoc p')), replace_doc p' db)
    ∧ List.find (has_id (params_id req)) (replace_doc p' db) = Some p'
    ∧ Product.name p' = default VUndefined (body req !! "name")
    ∧ Product.price p' = default VUndefined (body req !! "price")
    ∧ Product.description p'
      = default VUndefined (body req !! "description")
    ∧ Product.image p' = default VUndefined (body req !! "image")
    ∧ Product.brand p' = default VUndefined (body req !! "brand")
    ∧ Product.countInStock p'
      = default VUndefined (body req !! "countInStock")
    ∧ Product.category p' = Product.category p.
Proof.
  intros Hp. exists (updated req p).
  rewrite serve_updateProduct, Hp.
  split; [done|split; [by apply updateProduct_stored|done]].
Qed.

Lemma updateProduct_overwrites_witness :
  ∃ p' : Product.t,
    serve updateProduct Sample.put_mug [Sample.shirt_a; Sample.mug]
    = (Some (mkHttp 200 (ProductDoc p')),
       replace_doc p' [Sample.shirt_a; Sample.mug])
    ∧ List.find (has_id (params_id Sample.put_mug))
        (replace_doc p' [Sample.shirt_a; Sample.mug]) = Some p'
    ∧ Product.name p' = default VUndefined (body Sample.put_mug !! "name")
    ∧ Product.price p' = default VUndefined (body Sample.put_mug !! "price")
    ∧ Product.description p'
      = default VUndefined (body Sample.put_mug !! "description")
    ∧ Product.image p' = default VUndefined (body Sample.put_mug !! "image")
    ∧ Product.brand p' = default VUndefined (body Sample.put_mug !! "brand")
    ∧ Product.countInStock p'
      = default VUndefined (body Sample.put_mug !! "countInStock")
    ∧ Product.category p' = Product.category Sample.mug.
Proof.
  apply (updateProduct_overwrites Sample.put_mug
           [Sample.shirt_a; Sample.mug] Sample.mug).
  reflexivity.
Defined.

(** The body of [Sample.put_mug] has a category and no description: the
    stored category stays [Kitchen], the description becomes
    [undefined]. *)
Example updateProduct_put_mug :
  ∃ p', serve updateProduct Sample.put_mug [Sample.shirt_a; Sample.mug]
        = (Some (mkHttp 200 (ProductDoc p')), [Sample.shirt_a; p'])
        ∧ Product.name p' = VString "Big mug"
        ∧ Product.category p' = VString "Kitchen"
        ∧ Product.description p' = VUndefined.
Proof. eexists. split; [reflexivity|]. repeat split; compute_done. Qed.

(** C10. For an existing product, [updateProduct] leaves the fields it
    does not assign as they were: the identifier, the owner, the list
    of reviews, [numReviews] and [rating] of the stored and returned
    document are those of the document before the update. *)
Theorem updateProduct_frame
    (req : Request) (db : list Product.t) (p : Product.t) :
  List.find (has_id (params_id req)) db = Some p →
  ∃ p' : Product.t,
    serve updateProduct req db
    = (Some (mkHttp 200 (ProductDoc p')), replace_doc p' db)
    ∧ List.find (has_id (params_id req)) (replace_doc p' db) = Some p'
    ∧ Product._id p' = Product._id p
    ∧ Product.user p' = Product.user p
    ∧ Product.reviews p' = Product.reviews p
    ∧ Product.numReviews p' = Product.numReviews p
    ∧ Product.rating p' = Product.rating p.
Proof.
  intros Hp. exists (updated req p).
  rewrite serve_updateProduct, Hp.
  split; [done|split; [by apply updateProduct_stored|done]].
Qed.

Lemma updateProduct_frame_witness :
  ∃ p' : Product.t,
    serve updateProduct Sample.put_mug [Sample.mug]
    = (Some (mkHttp 200 (ProductDoc p')), replace_doc p' [Sample.mug])
    ∧ List.find (has_id (params_id Sample.put_mug))
        (replace_doc p' [Sample.mug]) = Some p'
    ∧ Product._id p' = Product._id Sample.mug
    ∧ Product.user p' = Product.user Sample.mug
    ∧ Product.reviews p' = Product.reviews Sample.mug
    ∧ Product.numReviews p' = Product.numReviews Sample.mug
    ∧ Product.rating p' = Product.rating Sample.mug.
Proof.
  apply (updateProduct_frame Sample.put_mug [Sample.mug] Sample.mug).
  reflexivity.
Defined.

(** ** The top-rated products *)

Lemma rating_leb_total (a b : number) :
  rating_leb a b = true ∨ rating_leb b a = true.
Proof.
  destruct a as [| | |x], b as [| | |y]; cbn; auto.
  rewrite !bool_decide_eq_true. apply (total Qcle).
Qed.

Lemma rating_leb_trans (a b c : number) :
  rating_leb a b = true → rating_leb b c = true → rating_leb a c = true.
Proof.
  destruct a as [| | |x], b as [| | |y], c as [| | |z]; cbn; try done.
  rewrite !bool_decide_eq_true. apply Qcle_trans.
Qed.

#[local] Instance rating_geq_trans : Transitive rating_geq.
Proof. intros a b c Hab Hbc. exact (rating_leb_trans _ _ _ Hbc Hab). Qed.

Lemma insert_desc_perm (x : Product.t) (l : list Product.t) :
  insert_desc x l ≡ₚ x :: l.
Proof.
  induction l as [|y l IH]; [done|]. cbn [insert_desc].
  destruct (rating_leb _ _); [done|].
  rewrite IH. apply Permutation_swap.
Qed.

Lemma sort_desc_perm (l : list Product.t) : sort_desc l ≡ₚ l.
Proof.
  induction l as [|x l IH]; [done|]. cbn [sort_desc].
  by rewrite insert_desc_perm, IH.
Qed.

Lemma insert_desc_sorted (x : Product.t) (l : list Product.t) :
  StronglySorted rating_geq l → StronglySorted rating_geq (insert_desc x l).
Proof.
  induction 1 as [|y l Hl IH Hy]; cbn [insert_desc].
  - repeat constructor.
  - destruct (rating_leb (Product.rating y) (Product.rating x)) eqn:Hyx.
    + constructor; [by constructor|].
      constructor; [done|].
      eapply Forall_impl; [exact Hy|]. intros z Hz. by trans y.
    + constructor; [done|].
      rewrite insert_desc_perm. constructor; [|done].
      unfold rating_geq.
      destruct (rating_leb_total (Product.rating x) (Product.rating y));
        congruence.
Qed.

Lemma sort_desc_sorted (l : list Product.t) :
  StronglySorted rating_geq (sort_desc l).
Proof.
  induction l as [|x l IH]; [constructor|]. by apply insert_desc_sorted.
Qed.

Lemma serve_getTopProducts {E : RegexEngine} (req : Request)
    (db : list Product.t) :
  serve getTopProducts req db
  = (Some (mkHttp 200 (ProductList (firstn 3 (sort_desc db)))), db).
Proof.
  unfold serve, getTopProducts, exec, mbind, M_bind, res_json. cbn.
  by rewrite filter_all.
Qed.

(** C7. For every catalogue, [getTopProducts] answers 200 with three
    products, or with all of them when the catalogue has fewer than
    three; they are sorted by rating from the highest down, they are
    products of the catalogue, and no product left out has a higher
    rating than one of them. *)
Theorem getTopProducts_top_three {E : RegexEngine}
    (req : Request) (db : list Product.t) :
  ∃ top rest : list Product.t,
    serve getTopProducts req db = (Some (mkHttp 200 (ProductList top)), db)
    ∧ length top = Nat.min 3 (length db)
    ∧ top ++ rest ≡ₚ db
    ∧ (length db < 3 → rest = [])%nat
    ∧ StronglySorted rating_geq top
    ∧ ∀ a b, a ∈ top → b ∈ rest → rating_geq a b.
Proof.
  exists (firstn 3 (sort_desc db)), (skipn 3 (sort_desc db)).
  assert (Hlen : length (sort_desc db) = length db)
    by apply Permutation_length, sort_desc_perm.
  assert (Hs := sort_desc_sorted db).
  rewrite <-(firstn_skipn 3 (sort_desc db)) in Hs.
  apply StronglySorted_app in Hs as (Hcross & Htop & _).
  split; [apply serve_getTopProducts|].
  split; [by rewrite length_firstn, Hlen|].
  split; [by rewrite firstn_skipn, sort_desc_perm|].
  split; [|split; [done|]].
  - intros Hlt. apply skipn_all2. lia.
  - intros a b Ha Hb. by apply Hcross.
Qed.

(** Of the ratings 2, 5, 5, 1 and 4 the answer keeps 5, 5 and 4, the
    two products rated 5 in their natural order. *)
Example getTopProducts_sample :
  serve (getTopProducts (E:=pcre_lite)) Sample.page_three Sample.rated
  = (Some (mkHttp 200
       (ProductList
          [Sample.product "id-2" "Scarf" 5; Sample.product "id-3" "Belt" 5;
           Sample.product "id-5" "Glove" 4])),
     Sample.rated).
Proof. compute_done. Qed.

(** A catalogue of two products is returned whole. *)
Example getTopProducts_two :
  serve (getTopProducts (E:=pcre_lite)) Sample.page_three
    [Sample.product "id-1" "Cap" 2; Sample.product "id-2" "Scarf" 5]
  = (Some (mkHttp 200
       (ProductList
          [Sample.product "id-2" "Scarf" 5; Sample.product "id-1" "Cap" 2])),
     [Sample.product "id-1" "Cap" 2; Sample.product "id-2" "Scarf" 5]).
Proof. compute_done. Qed.

(** * Further properties of the controller *)

(** ** Deleting and creating *)

Lemma serve_deleteProduct (req : Request) (db : list Product.t) :
  serve deleteProduct req db =
  match List.find (has_id (params_id req)) db with
  | Some p =>
      (Some (mkHttp 200 (Message "Product Removed")),
       remove_doc (Product._id p) db)
  | None => (Some (mkHttp 404 (Message "Product not found")), db)
  end.
Proof.
  unfold serve, deleteProduct, findById, mbind, M_bind. cbn [collection].
  by destruct (List.find _ db).
Qed.

(** The document [createProduct] builds for a request. *)
Lemma serve_createProduct (nd : NewDocument) (req : Request)
    (db : list Product.t) :
  serve (createProduct nd) req db =
  match List.find (has_id (new_id nd)) db with
  | Some _ => (Some (mkHttp 500 (Message duplicate_key)), db)
  | None =>
      let p :=
        Product.mk (new_id nd) (User._id (user req)) (VString "Sample Name")
          (VString "/images/sample.jpg") (VString "Sample brand")
          (VString "Sample category") (VString "Sample description")
          [] (default_rating nd) (Num.of_Z 0)
          (VNumber (Num.of_Z 0)) (VNumber (Num.of_Z 0)) in
      (Some (mkHttp 201 (ProductDoc p)), db ++ [p])
  end.
Proof.
  unfold serve, createProduct, save_new, mbind, M_bind.
  cbn [collection Product._id].
  by destruct (List.find _ db).
Qed.

(** ** A product that is not there *)

(** X1. When no stored product has the identifier of the request,
    [updateProduct], [deleteProduct] and [createProductReview] each
    answer 404 with [Product not found] and leave the collection as it
    was. *)
Theorem absent_product_404 (req : Request) (db : list Product.t) :
  (∀ p, p ∈ db → Product._id p ≠ params_id req) →
  serve updateProduct req db
  = (Some (mkHttp 404 (Message "Product not found")), db)
  ∧ serve deleteProduct req db
    = (Some (mkHttp 404 (Message "Product not found")), db)
  ∧ serve createProductReview req db
    = (Some (mkHttp 404 (Message "Product not found")), db).
Proof.
  intros Hno. apply find_has_id_None in Hno.
  rewrite serve_updateProduct, serve_deleteProduct,
    serve_createProductReview, Hno.
  done.
Qed.

Lemma absent_product_404_witness :
  serve updateProduct (Sample2.on "id-Z") Sample.shirts
  = (Some (mkHttp 404 (Message "Product not found")), Sample.shirts)
  ∧ serve deleteProduct (Sample2.on "id-Z") Sample.shirts
    = (Some (mkHttp 404 (Message "Product not found")), Sample.shirts)
  ∧ serve createProductReview (Sample2.on "id-Z") Sample.shirts
    = (Some (mkHttp 404 (Message "Product not found")), Sample.shirts).
Proof.
  apply (absent_product_404 (Sample2.on "id-Z") Sample.shirts).
  apply Forall_forall. compute_done.
Defined.

(** ** Handlers that only read *)

(** X2. [getProducts], [getProductById] and [getTopProducts] never
    change the collection, whatever the request and whether they answer
    or fail. *)
Theorem read_handlers_keep_collection {E : RegexEngine}
    (req : Request) (db : list Product.t) :
  snd (serve getProducts req db) = db
  ∧ snd (serve getProductById req db) = db
  ∧ snd (serve getTopProducts req db) = db.
Proof.
  split; [|split].
  - unfold serve. rewrite getProducts_run. cbn [collection].
    destruct (matches req db); [|done]. by destruct (Num.to_nat _).
  - rewrite serve_getProductById. by destruct (List.find _ db).
  - by rewrite serve_getTopProducts.
Qed.

(** ** The three outcomes of a review *)

(** X3. [createProductReview] has exactly three outcomes, decided by
    the collection alone: 404 when the product is missing, 400 when the
    product has a review by the user of the request, 201 when it has
    none. *)
Theorem createProductReview_outcomes (req : Request) (db : list Product.t) :
  (fst (serve createProductReview req db)
   = Some (mkHttp 404 (Message "Product not found"))
   ↔ ∀ p, p ∈ db → Product._id p ≠ params_id req)
  ∧ (fst (serve createProductReview req db)
     = Some (mkHttp 400 (Message "Product already reviewed"))
     ↔ ∃ p r, List.find (has_id (params_id req)) db = Some p
              ∧ r ∈ Product.reviews p
              ∧ Review.user r = User._id (user req))
  ∧ (fst (serve createProductReview req db)
     = Some (mkHttp 201 (Message "Review added"))
     ↔ ∃ p, List.find (has_id (params_id req)) db = Some p
            ∧ ∀ r, r ∈ Product.reviews p →
                   Review.user r ≠ User._id (user req)).
Proof.
  rewrite serve_createProductReview, <-find_has_id_None.
  destruct (List.find _ db) as [p|] eqn:Hp.
  - destruct (List.find _ (Product.reviews p)) as [r|] eqn:Hr; cbn [fst].
    + assert (Hdup : r ∈ Product.reviews p
                     ∧ Review.user r = User._id (user req)).
      { apply find_some in Hr as [Hin Hu]. split; [by apply list_elem_of_In|].
        unfold same_user in Hu. apply String.eqb_eq in Hu.
        destruct (Review.user r), (User._id (user req)). cbn in Hu.
        by rewrite Hu. }
      destruct Hdup as [Hin Hu].
      split; [done|split].
      * split; [|done]. intros _. by exists p, r.
      * split; [done|]. intros (p' & [= <-] & Hall). by destruct (Hall r Hin).
    + assert (Hr' := proj1 (find_same_user_None _ _) Hr).
      split; [done|split].
      * split; [done|]. intros (p' & r & [= <-] & Hin & Hu).
        by destruct (Hr' r Hin).
      * split; [|done]. intros _. by exists p.
  - cbn [fst]. split; [done|split].
    + split; [done|]. by intros (p & r & [=] & _).
    + split; [done|]. by intros (p & [=] & _).
Qed.

(** ** Documents other than the one of the request *)

Lemma find_replace_doc_ne (id : ObjectId) (p : Product.t)
    (db : list Product.t) :
  id ≠ Product._id p →
  List.find (has_id id) (replace_doc p db) = List.find (has_id id) db.
Proof.
  intros Hne. assert (Hp : has_id id p = false).
  { unfold has_id. apply bool_decide_eq_false_2. congruence. }
  induction db as [|d db IH]; cbn [replace_doc List.find].
  - by rewrite Hp.
  - destruct (has_id (Product._id p) d) eqn:Hd; cbn [List.find].
    + rewrite Hp. apply bool_decide_eq_true in Hd.
      unfold has_id. by rewrite bool_decide_eq_false_2 by congruence.
    + by rewrite IH.
Qed.

Lemma find_remove_doc_ne (id id' : ObjectId) (db : list Product.t) :
  id ≠ id' →
  List.find (has_id id) (remove_doc id' db) = List.find (has_id id) db.
Proof.
  intros Hne. induction db as [|d db IH]; [done|].
  cbn [remove_doc List.find].
  destruct (has_id id' d) eqn:Hd; cbn [List.find].
  - apply bool_decide_eq_true in Hd.
    unfold has_id. by rewrite bool_decide_eq_false_2 by congruence.
  - by rewrite IH.
Qed.

(** X4. Updating, reviewing or deleting one product changes no other
    one: [getProductById] for any other identifier answers after the
    call what it answered before. *)
Theorem other_products_untouched
    (req req' : Request) (db : list Product.t) :
  params_id req' ≠ params_id req →
  fst (serve getProductById req' (snd (serve updateProduct req db)))
  = fst (serve getProductById req' db)
  ∧ fst (serve getProductById req' (snd (serve createProductReview req db)))
    = fst (serve getProductById req' db)
  ∧ fst (serve getProductById req' (snd (serve deleteProduct req db)))
    = fst (serve getProductById req' db).
Proof.
  intros Hne. rewrite !serve_getProductById.
  rewrite serve_updateProduct, serve_createProductReview,
    serve_deleteProduct.
  destruct (List.find (has_id (params_id req)) db) as [p|] eqn:Hp;
    [|done].
  apply find_has_id in Hp as [_ Hid].
  split; [|split]; cbn [snd].
  - rewrite find_replace_doc_ne by (cbn; congruence).
    by destruct (List.find _ db).
  - destruct (List.find _ (Product.reviews p)); cbn [snd]; [done|].
    rewrite find_replace_doc_ne by (cbn; congruence).
    by destruct (List.find _ db).
  - rewrite find_remove_doc_ne by congruence.
    by destruct (List.find _ db).
Qed.

Lemma other_products_untouched_witness :
  fst (serve getProductById (Sample2.on "id-A")
         (snd (serve updateProduct Sample.put_mug
                 [Sample.shirt_a; Sample.mug])))
  = fst (serve getProductById (Sample2.on "id-A")
           [Sample.shirt_a; Sample.mug])
  ∧ fst (serve getProductById (Sample2.on "id-A")
           (snd (serve createProductReview Sample.put_mug
                   [Sample.shirt_a; Sample.mug])))
    = fst (serve getProductById (Sample2.on "id-A")
             [Sample.shirt_a; Sample.mug])
  ∧ fst (serve getProductById (Sample2.on "id-A")
           (snd (serve deleteProduct Sample.put_mug
                   [Sample.shirt_a; Sample.mug])))
    = fst (serve getProductById (Sample2.on "id-A")
             [Sample.shirt_a; Sample.mug]).
Proof.
  apply (other_products_untouched Sample.put_mug (Sample2.on "id-A")
           [Sample.shirt_a; Sample.mug]).
  compute_done.
Defined.

(** ** Deleting a product *)

Lemma elem_of_remove_doc (id : ObjectId) (q : Product.t)
    (db : list Product.t) :
  NoDup (Product._id <$> db) →
  q ∈ remove_doc id db ↔ q ∈ db ∧ Product._id q ≠ id.
Proof.
  induction db as [|d db IH]; intros Hnd; cbn [remove_doc].
  - split; [by intros ?%elem_of_nil|by intros [?%elem_of_nil _]].
  - rewrite fmap_cons in Hnd. apply NoDup_cons in Hnd as [Hd Hnd].
    destruct (has_id id d) eqn:Hid;
      [apply bool_decide_eq_true in Hid|apply bool_decide_eq_false in Hid];
      rewrite !elem_of_cons.
    + split.
      * intros Hq. split; [by right|]. intros Hq'. apply Hd.
        rewrite Hid, <-Hq'. by apply list_elem_of_fmap_2.
      * intros [[->|Hq] Hne]; [done|done].
    + rewrite (IH Hnd). split.
      * intros [->|[Hq Hne]]; [by split; [left|]|by split; [right|]].
      * intros [[->|Hq] Hne]; [by left|by right].
Qed.

Lemma length_remove_doc (id : ObjectId) (p : Product.t)
    (db : list Product.t) :
  List.find (has_id id) db = Some p →
  length db = S (length (remove_doc id db)).
Proof.
  induction db as [|d db IH]; [done|]. cbn [List.find remove_doc].
  destruct (has_id id d); [done|]. intros Hf. cbn [length]. by rewrite <-IH.
Qed.

(** X5. In a collection with unique identifiers, [deleteProduct] on a
    stored product answers 200 with [Product Removed]; the collection
    afterwards holds exactly the other products, one document fewer,
    and [getProductById] for the deleted identifier answers 404. *)
Theorem deleteProduct_removes (req : Request) (db : list Product.t)
    (p : Product.t) :
  NoDup (Product._id <$> db) →
  p ∈ db → Product._id p = params_id req →
  ∃ db' : list Product.t,
    serve deleteProduct req db
    = (Some (mkHttp 200 (Message "Product Removed")), db')
    ∧ (∀ q, q ∈ db' ↔ q ∈ db ∧ Product._id q ≠ params_id req)
    ∧ length db = S (length db')
    ∧ serve getProductById req db'
      = (Some (mkHttp 404 (Message "Product not found")), db').
Proof.
  intros Hnd Hin Hid. exists (remove_doc (params_id req) db).
  assert (Hf := find_unique _ p db Hnd Hin Hid).
  rewrite serve_deleteProduct, Hf, Hid.
  assert (Hel := λ q, elem_of_remove_doc (params_id req) q db Hnd).
  split; [done|split; [done|split; [by apply (length_remove_doc _ p)|]]].
  rewrite serve_getProductById.
  rewrite (proj2 (find_has_id_None _ _)); [done|].
  intros q Hq. by apply Hel in Hq as [_ Hq].
Qed.

Lemma deleteProduct_removes_witness :
  ∃ db' : list Product.t,
    serve deleteProduct (Sample2.on "id-mug") [Sample.shirt_a; Sample.mug]
    = (Some (mkHttp 200 (Message "Product Removed")), db')
    ∧ (∀ q, q ∈ db' ↔ q ∈ [Sample.shirt_a; Sample.mug]
                      ∧ Product._id q ≠ params_id (Sample2.on "id-mug"))
    ∧ length [Sample.shirt_a; Sample.mug] = S (length db')
    ∧ serve getProductById (Sample2.on "id-mug") db'
      = (Some (mkHttp 404 (Message "Product not found")), db').
Proof.
  apply (deleteProduct_removes (Sample2.on "id-mug")
           [Sample.shirt_a; Sample.mug] Sample.mug).
  - compute_done.
  - compute_done.
  - reflexivity.
Defined.

(** ** Creating a product *)

Lemma find_app_new (id : ObjectId) (p : Product.t) (db : list Product.t) :
  List.find (has_id id) db = None → Product._id p = id →
  List.find (has_id id) (db ++ [p]) = Some p.
Proof.
  intros Hf Hid. induction db as [|d db IH]; cbn [app List.find] in *.
  - unfold has_id. by rewrite bool_decide_eq_true_2.
  - destruct (has_id id d); [done|]. by apply IH.
Qed.

(** X6. With an identifier that is not yet stored, [createProduct]
    answers 201 with a new product that belongs to the user of the
    request and has no reviews; it is stored after the products that
    were there, which stay as they were, and [getProductById] for its
    identifier answers with that very document. *)
Theorem createProduct_then_get (nd : NewDocument) (req req' : Request)
    (db : list Product.t) :
  (∀ q, q ∈ db → Product._id q ≠ new_id nd) →
  params_id req' = new_id nd →
  ∃ p : Product.t,
    serve (createProduct nd) req db
    = (Some (mkHttp 201 (ProductDoc p)), db ++ [p])
    ∧ Product._id p = new_id nd
    ∧ Product.user p = User._id (user req)
    ∧ Product.reviews p = []
    ∧ Product.numReviews p = Num.of_nat 0
    ∧ serve getProductById req' (db ++ [p])
      = (Some (mkHttp 200 (ProductDoc p)), db ++ [p]).
Proof.
  intros Hfresh Hid'. apply find_has_id_None in Hfresh.
  rewrite serve_createProduct, Hfresh. cbn zeta.
  eexists. split; [reflexivity|].
  split; [done|split; [done|split; [done|split; [done|]]]].
  rewrite serve_getProductById, Hid'.
  by rewrite (find_app_new (new_id nd) _ db Hfresh).
Qed.

Lemma createProduct_then_get_witness :
  ∃ p : Product.t,
    serve (createProduct Sample2.fresh) (Sample2.on "") Sample.shirts
    = (Some (mkHttp 201 (ProductDoc p)), Sample.shirts ++ [p])
    ∧ Product._id p = new_id Sample2.fresh
    ∧ Product.user p = User._id (user (Sample2.on ""))
    ∧ Product.reviews p = []
    ∧ Product.numReviews p = Num.of_nat 0
    ∧ serve getProductById (Sample2.on "id-new") (Sample.shirts ++ [p])
      = (Some (mkHttp 200 (ProductDoc p)), Sample.shirts ++ [p]).
Proof.
  apply (createProduct_then_get Sample2.fresh (Sample2.on "")
           (Sample2.on "id-new") Sample.shirts).
  - apply Forall_forall. compute_done.
  - reflexivity.
Defined.

(** ** Updating twice *)

Lemma replace_doc_idem (p : Product.t) (db : list Product.t) :
  replace_doc p (replace_doc p db) = replace_doc p db.
Proof.
  assert (Hp : has_id (Product._id p) p = true).
  { unfold has_id. by apply bool_decide_eq_true_2. }
  induction db as [|d db IH]; cbn [replace_doc].
  - by rewrite Hp.
  - destruct (has_id (Product._id p) d) eqn:Hd; cbn [replace_doc].
    + by rewrite Hp.
    + by rewrite Hd, IH.
Qed.

(** X7. [updateProduct] is idempotent: serving the same update a second
    time gives the same answer and the same collection as serving it
    once. *)
Theorem updateProduct_idempotent (req : Request) (db : list Product.t) :
  serve updateProduct req (snd (serve updateProduct req db))
  = serve updateProduct req db.
Proof.
  rewrite (serve_updateProduct req db).
  destruct (List.find _ db) as [p|] eqn:Hp; cbn [snd].
  - rewrite serve_updateProduct, (updateProduct_stored req db p Hp).
    change (updated req (updated req p)) with (updated req p).
    by rewrite replace_doc_idem.
  - by rewrite serve_updateProduct, Hp.
Qed.

(** ** Invariants kept by every request *)

Lemma Forall_replace_doc (P : Product.t → Prop) (p : Product.t)
    (db : list Product.t) :
  Forall P db → P p → Forall P (replace_doc p db).
Proof.
  intros Hdb Hp. induction Hdb as [|d db Hd Hdb IH]; cbn [replace_doc].
  - by constructor.
  - destruct (has_id _ d); by constructor.
Qed.

Lemma Forall_remove_doc (P : Product.t → Prop) (id : ObjectId)
    (db : list Product.t) :
  Forall P db → Forall P (remove_doc id db).
Proof.
  induction 1 as [|d db Hd Hdb IH]; cbn [remove_doc]; [done|].
  destruct (has_id id d); [done|by constructor].
Qed.

Section Preservation.

Context {E : RegexEngine}.
Variable P : Product.t → Prop.

Hypothesis P_updated : ∀ req p, P p → P (updated req p).
Hypothesis P_reviewed : ∀ req p,
  P p →
  List.find (same_user (User._id (user req))) (Product.reviews p) = None →
  P (with_review (submitted_review req) p).
Hypothesis P_created : ∀ id owner rating,
  P (Product.mk id owner (VString "Sample Name")
       (VString "/images/sample.jpg") (VString "Sample brand")
       (VString "Sample category") (VString "Sample description")
       [] rating (Num.of_Z 0) (VNumber (Num.of_Z 0)) (VNumber (Num.of_Z 0))).

(** A property of single products that updates, accepted reviews and
    creation respect holds of every product after any request. *)
Lemma after_Forall (db : list Product.t) (call : Route * Request) :
  Forall P db → Forall P (after db call).
Proof.
  intros Hdb. destruct call as [r req]. unfold after. cbn [fst snd].
  destruct r; cbn [route_handler].
  - by rewrite (proj1 (read_handlers_keep_collection req db)).
  - by rewrite (proj1 (proj2 (read_handlers_keep_collection req db))).
  - rewrite serve_deleteProduct.
    destruct (List.find _ db); [|done]. by apply Forall_remove_doc.
  - rewrite serve_createProduct.
    destruct (List.find _ db); [done|]. cbn [snd].
    apply Forall_app. split; [done|]. by repeat constructor.
  - rewrite serve_updateProduct.
    destruct (List.find _ db) as [p|] eqn:Hp; [|done]. cbn [snd].
    apply Forall_replace_doc; [done|]. apply P_updated.
    apply find_has_id in Hp as [Hin _].
    by apply (proj1 (Forall_forall _ _) Hdb).
  - rewrite serve_createProductReview.
    destruct (List.find _ db) as [p|] eqn:Hp; [|done].
    destruct (List.find _ (Product.reviews p)) eqn:Hr; [done|]. cbn [snd].
    apply Forall_replace_doc; [done|]. apply P_reviewed; [|done].
    apply find_has_id in Hp as [Hin _].
    by apply (proj1 (Forall_forall _ _) Hdb).
  - by rewrite (proj2 (proj2 (read_handlers_keep_collection req db))).
Qed.

Lemma after_all_Forall (calls : list (Route * Request))
    (db : list Product.t) :
  Forall P db → Forall P (after_all calls db).
Proof.
  revert db. induction calls as [|call calls IH]; intros db Hdb; [done|].
  cbn [after_all fold_left]. apply IH. by apply after_Forall.
Qed.

End Preservation.

(** X8. Whatever requests are served, one after the other, on a
    collection in which every product has [numReviews] equal to the
    length of its list of reviews, every product of the resulting
    collection has it too. *)
Theorem numReviews_invariant {E : RegexEngine}
    (calls : list (Route * Request)) (db : list Product.t) :
  Forall counts_reviews db → Forall counts_reviews (after_all calls db).
Proof.
  apply after_all_Forall; unfold counts_reviews.
  - intros req p Hp. exact Hp.
  - intros req p _ _. reflexivity.
  - intros id owner rating. reflexivity.
Qed.

Lemma numReviews_invariant_witness :
  Forall counts_reviews (after_all (E:=pcre_lite) Sample2.session [Sample.mug]).
Proof.
  apply (numReviews_invariant (E:=pcre_lite) Sample2.session [Sample.mug]).
  repeat constructor.
Defined.

(** X9. Whatever requests are served on a collection in which the
    [rating] of every product with at least one review is the mean of
    the ratings of its reviews, the same holds of the resulting
    collection. *)
Theorem rating_invariant {E : RegexEngine}
    (calls : list (Route * Request)) (db : list Product.t) :
  Forall rating_is_mean db → Forall rating_is_mean (after_all calls db).
Proof.
  apply after_all_Forall; unfold rating_is_mean.
  - intros req p Hp. exact Hp.
  - intros req p _ _ _. reflexivity.
  - intros id owner rating Hne. by destruct Hne.
Qed.

Lemma rating_invariant_witness :
  Forall rating_is_mean (after_all (E:=pcre_lite) Sample2.session [Sample.mug]).
Proof.
  apply (rating_invariant (E:=pcre_lite) Sample2.session [Sample.mug]).
  constructor; [|constructor]. intros _. compute_done.
Defined.

(** X10. Whatever requests are served on a collection in which no
    product has two reviews by the same user, no product of the
    resulting collection has two reviews by the same user. *)
Theorem one_review_per_user_invariant {E : RegexEngine}
    (calls : list (Route * Request)) (db : list Product.t) :
  Forall one_review_per_user db →
  Forall one_review_per_user (after_all calls db).
Proof.
  apply after_all_Forall; unfold one_review_per_user.
  - intros req p Hp. exact Hp.
  - intros req p Hp Hnone. cbn [with_review Product.reviews].
    rewrite fmap_app. apply NoDup_app. split; [done|split].
    + intros u Hu Hu'. apply list_elem_of_fmap in Hu as (r & -> & Hr).
      cbn in Hu'. apply list_elem_of_singleton in Hu'.
      by destruct (proj1 (find_same_user_None _ _) Hnone r Hr).
    + apply NoDup_singleton.
  - intros id owner rating. cbn. apply NoDup_nil_2.
Qed.

Lemma one_review_per_user_invariant_witness :
  Forall one_review_per_user
    (after_all (E:=pcre_lite) Sample2.session [Sample.mug]).
Proof.
  apply (one_review_per_user_invariant (E:=pcre_lite)
           Sample2.session [Sample.mug]).
  constructor; [|constructor]. unfold one_review_per_user. compute_done.
Defined.

(** The session of [Sample2] ends with the new product alone, carrying
    the one accepted review. *)
Example session_result :
  after_all (E:=pcre_lite) Sample2.session [Sample.mug]
  = [Product.mk (mkObjectId "id-new") (User._id Sample.ann)
       (VString "Sample Name") (VString "/images/sample.jpg")
       (VString "Sample brand") (VString "Sample category")
       (VString "Sample description")
       [Review.mk "Cho" (Num.of_Z 5) VUndefined (User._id Sample.cho)]
       (Num.of_Z 5) (Num.of_Z 1) (VNumber (Num.of_Z 0))
       (VNumber (Num.of_Z 0))].
Proof. compute_done. Qed.

(** ** Identifiers stay unique *)

Lemma ids_replace_doc (p q : Product.t) (db : list Product.t) :
  List.find (has_id (Product._id p)) db = Some q →
  Product._id <$> replace_doc p db = Product._id <$> db.
Proof.
  induction db as [|d db IH]; [done|]. cbn [List.find replace_doc].
  destruct (has_id (Product._id p) d) eqn:Hd.
  - intros _. apply bool_decide_eq_true in Hd. rewrite !fmap_cons.
    by rewrite Hd.
  - intros Hf. rewrite !fmap_cons. by rewrite IH.
Qed.

Lemma remove_doc_sublist (id : ObjectId) (db : list Product.t) :
  remove_doc id db `sublist_of` db.
Proof.
  induction db as [|d db IH]; [done|]. cbn [remove_doc].
  destruct (has_id id d); [by apply sublist_cons|by apply sublist_skip].
Qed.

Lemma after_NoDup_ids {E : RegexEngine} (db : list Product.t)
    (call : Route * Request) :
  NoDup (Product._id <$> db) → NoDup (Product._id <$> after db call).
Proof.
  intros Hdb. destruct call as [r req]. unfold after. cbn [fst snd].
  destruct r; cbn [route_handler].
  - by rewrite (proj1 (read_handlers_keep_collection req db)).
  - by rewrite (proj1 (proj2 (read_handlers_keep_collection req db))).
  - rewrite serve_deleteProduct.
    destruct (List.find _ db); [|done]. cbn [snd].
    apply (sublist_NoDup _ (Product._id <$> db));
      [exact Hdb|apply (fmap_sublist Product._id), remove_doc_sublist].
  - rewrite serve_createProduct.
    destruct (List.find _ db) eqn:Hf; [done|]. cbn [snd].
    rewrite fmap_app. apply NoDup_app. split; [done|split].
    + intros id Hid Hid'. cbn in Hid'. apply list_elem_of_singleton in Hid'.
      apply list_elem_of_fmap in Hid as (q & -> & Hq).
      by destruct (proj1 (find_has_id_None _ _) Hf q Hq).
    + apply NoDup_singleton.
  - rewrite serve_updateProduct.
    destruct (List.find _ db) as [p|] eqn:Hp; [|done]. cbn [snd].
    rewrite (ids_replace_doc _ p); [done|].
    apply find_has_id in Hp as Hp'. destruct Hp' as [_ Hid].
    cbn [updated Product._id]. by rewrite Hid.
  - rewrite serve_createProductReview.
    destruct (List.find _ db) as [p|] eqn:Hp; [|done].
    destruct (List.find _ (Product.reviews p)); [done|]. cbn [snd].
    rewrite (ids_replace_doc _ p); [done|].
    apply find_has_id in Hp as Hp'. destruct Hp' as [_ Hid].
    cbn [with_review Product._id]. by rewrite Hid.
  - by rewrite (proj2 (proj2 (read_handlers_keep_collection req db))).
Qed.

(** X11. Whatever requests are served on a collection whose products
    have pairwise different identifiers, the products of the resulting
    collection have pairwise different identifiers: no handler stores a
    second document under an identifier in use. *)
Theorem unique_ids_invariant {E : RegexEngine}
    (calls : list (Route * Request)) (db : list Product.t) :
  NoDup (Product._id <$> db) → NoDup (Product._id <$> after_all calls db).
Proof.
  revert db. induction calls as [|call calls IH]; intros db Hdb; [done|].
  cbn [after_all fold_left]. apply IH. by apply after_NoDup_ids.
Qed.

Lemma unique_ids_invariant_witness :
  NoDup (Product._id
           <$> after_all (E:=pcre_lite) Sample2.session
                 [Sample.shirt_a; Sample.mug]).
Proof.
  apply (unique_ids_invariant (E:=pcre_lite) Sample2.session
           [Sample.shirt_a; Sample.mug]).
  compute_done.
Defined.

(** ** The range of the rating *)

Section RatingRange.

Local Open Scope Qc_scope.

Variables lo hi : Qc.



End RatingRange.



(** ** Paging through the matches *)

(** X13. Every match can be reached by paging: the match at position
    [j] (from 0) of the matches is on page [j / 10 + 1], at position
    [j mod 10] of that page. *)
Theorem getProducts_page_of_match {E : RegexEngine}
    (req : Request) (db ms : list Product.t) (j : nat) (x : Product.t) :
  matches req db = Some ms →
  ms !! j = Some x →
  page_number req = Num.of_Z (Z.of_nat (j / 10) + 1) →
  ∃ (products : list Product.t) (pages : number),
    serve getProducts req db
    = (Some (mkHttp 200 (ProductsPage products (page_number req) pages)), db)
    ∧ products !! (j mod 10)%nat = Some x.
Proof.
  intros Hms Hj Hp.
  eexists _, _. split.
  - apply (serve_getProducts req db ms (10 * (j / 10))); [done|].
    rewrite Hp, offset_of_Z.
    replace (10 * (Z.of_nat (j / 10) + 1 - 1)) with (Z.of_nat (10 * (j / 10)))
      by lia.
    rewrite to_nat_of_Z by lia. by rewrite Nat2Z.id.
  - unfold pageSize.
    rewrite lookup_take_lt by (apply Nat.mod_upper_bound; lia).
    rewrite lookup_drop. by rewrite <-Nat.div_mod_eq.
Qed.

Lemma getProducts_page_of_match_witness :
  ∃ (products : list Product.t) (pages : number),
    serve (getProducts (E:=pcre_lite)) Sample.page_three Sample.shirts
    = (Some (mkHttp 200
               (ProductsPage products (page_number Sample.page_three) pages)),
       Sample.shirts)
    ∧ products !! (23 mod 10)%nat = Some (Sample.product "id-X" "Shirt X" 0).
Proof.
  apply (getProducts_page_of_match (E:=pcre_lite) Sample.page_three
           Sample.shirts Sample.shirts 23).
  - vm_compute. reflexivity.
  - reflexivity.
  - compute_done.
Defined.

(** X14. A page after the last one is not an error: for an integer page
    [p ≥ 1], [getProducts] answers 200, and its list of products is
    empty exactly when [p] is greater than the number of pages it
    reports. *)
Theorem getProducts_beyond_last_page {E : RegexEngine}
    (req : Request) (db ms : list Product.t) (p : Z) :
  matches req db = Some ms →
  page_number req = Num.of_Z p →
  1 ≤ p →
  ∃ (products : list Product.t) (pages : Z),
    serve getProducts req db
    = (Some (mkHttp 200
               (ProductsPage products (Num.of_Z p) (Num.of_Z pages))), db)
    ∧ (products = [] ↔ pages < p).
Proof.
  intros Hms Hp Hge.
  exists (firstn 10 (skipn (Z.to_nat (10 * (p - 1))) ms)),
    ((Z.of_nat (length ms) + 9) / 10).
  split.
  - rewrite (serve_getProducts req db ms (Z.to_nat (10 * (p - 1)))); [|done|].
    + by rewrite Hp, ceil_div_pageSize.
    + rewrite Hp, offset_of_Z. apply to_nat_of_Z. lia.
  - assert (Hd := Z.div_mod (Z.of_nat (length ms) + 9) 10 ltac:(lia)).
    assert (Hm := Z.mod_pos_bound (Z.of_nat (length ms) + 9) 10 ltac:(lia)).
    rewrite <-length_zero_iff_nil, length_firstn, length_skipn. lia.
Qed.

Lemma getProducts_beyond_last_page_witness :
  ∃ (products : list Product.t) (pages : Z),
    serve (getProducts (E:=pcre_lite))
      (Sample.request "id-A" Sample.ann {[ "pageNumber" := "4" ]} ∅)
      Sample.shirts
    = (Some (mkHttp 200
               (ProductsPage products (Num.of_Z 4) (Num.of_Z pages))),
       Sample.shirts)
    ∧ (products = [] ↔ pages < 4).
Proof.
  apply (getProducts_beyond_last_page (E:=pcre_lite)
           (Sample.request "id-A" Sample.ann {[ "pageNumber" := "4" ]} ∅)
           Sample.shirts Sample.shirts 4).
  - vm_compute. reflexivity.
  - compute_done.
  - lia.
Defined.

Lemma filter_sublist (P : Product.t → bool) (db : list Product.t) :
  List.filter P db `sublist_of` db.
Proof.
  induction db as [|d db IH]; [done|]. cbn [List.filter].
  destruct (P d); [by apply sublist_skip|by apply sublist_cons].
Qed.

(** X15. Whatever [getProducts] answers with is a selection of the
    stored products in their stored order: no product is listed twice
    unless it is stored twice, and none is made up. *)
Theorem getProducts_stored_order {E : RegexEngine}
    (req : Request) (db db' : list Product.t) (st : nat)
    (products : list Product.t) (page pages : number) :
  serve getProducts req db
  = (Some (mkHttp st (ProductsPage products page pages)), db') →
  products `sublist_of` db ∧ (length products ≤ 10)%nat.
Proof.
  intros Hs. apply serve_getProducts_inv in Hs as (ms & k & Hms & -> & _).
  split.
  - trans ms; [etrans; [apply sublist_take|apply sublist_drop]|].
    unfold matches in Hms.
    destruct (filter_pred (keyword_filter req)) as [P|]; [|done].
    injection Hms as <-. apply filter_sublist.
  - rewrite length_take. unfold pageSize. lia.
Qed.

Lemma getProducts_stored_order_witness :
  map (λ l, Sample.product ("id-" ++ l) ("Shirt " ++ l) 0)
    ["U"; "V"; "W"; "X"; "Y"] `sublist_of` Sample.shirts
  ∧ (length (map (λ l, Sample.product ("id-" ++ l) ("Shirt " ++ l) 0)
               ["U"; "V"; "W"; "X"; "Y"]) ≤ 10)%nat.
Proof.
  apply (getProducts_stored_order (E:=pcre_lite) Sample.page_three
           Sample.shirts Sample.shirts 200 _ (Num.of_Z 3) (Num.of_Z 3)).
  compute_done.
Defined.

(** X16. [getProducts] handles no failure of the store itself: when the
    store rejects the keyword as a pattern, the request ends in the
    error answer with status 500, no page is sent and the collection is
    as before. *)
Theorem getProducts_rejected_keyword {E : RegexEngine}
    (req : Request) (db : list Product.t) (kw : string) :
  query req !! "keyword" = Some kw →
  kw ≠ EmptyString →
  regex_compile kw "i" = None →
  ∃ message : string,
    serve getProducts req db = (Some (mkHttp 500 (Message message)), db).
Proof.
  intros Hq Hne Hrej. exists store_error.
  unfold serve. rewrite getProducts_run. cbn [collection].
  by rewrite (matches_keyword req db kw Hq Hne), Hrej.
Qed.

Lemma getProducts_rejected_keyword_witness :
  ∃ message : string,
    serve (getProducts (E:=pcre_lite)) Sample2.keyword_paren Sample.shirts
    = (Some (mkHttp 500 (Message message)), Sample.shirts).
Proof.
  apply (getProducts_rejected_keyword (E:=pcre_lite) Sample2.keyword_paren
           Sample.shirts "(").
  - reflexivity.
  - discriminate.
  - reflexivity.
Defined.
